(** * lib/eslint/eslint.js: the options validator and the ESLint constructor

    A shallow embedding of [normalizePluginIds], [processOptions] and the
    constructor of the [ESLint] class, with the part of the JavaScript value
    model these three need: run-time type tags, own properties in property
    order, abrupt completions, and the calls the constructor makes on the
    wrapped [CLIEngine]. *)

From Stdlib Require Import String Ascii List ZArith Bool Lia DecimalString Permutation.
Import ListNotations.
Open Scope string_scope.
Open Scope list_scope.

(** ** JavaScript values *)

#[local] Set Warnings "-register-all".

(** Data as the program sees it.  An object is the list of its own
    enumerable properties in property order (the order [Object.keys]
    reports); a well-formed object has no repeated key, and its prototype is
    [Object.prototype].  An array is dense: it has an element at every index
    below its length.  Numbers are kept to the integers; a function is an
    opaque handle that only the host can call. *)
Inductive value : Type :=
| VUndefined
| VNull
| VBool (b : bool)
| VNum (n : Z)
| VStr (s : string)
| VArr (elems : list value)
| VObj (props : list (string * value))
| VFun (f : nat).

Definition props : Type := list (string * value).

(** What the runtime itself throws. *)
Inductive type_error : Type :=
| NotAFunction (callee : string)
| CannotReadProperty (key : string) (target : value)
| NotIterable (v : value).

(** A thrown value: [new Error(message)] of the program, a [TypeError] of
    the runtime, or whatever a caller-supplied function or the engine threw. *)
Inductive thrown : Type :=
| Error (message : string)
| TypeError (why : type_error)
| Foreign (v : value).

(** Completion of an evaluation: normal, or abrupt by [throw]. *)
Inductive completion (A : Type) : Type :=
| Normal (a : A)
| Throw (t : thrown).
Arguments Normal {A} a.
Arguments Throw {A} t.

Definition bind {A B : Type} (c : completion A) (k : A -> completion B) : completion B :=
  match c with
  | Normal a => k a
  | Throw t => Throw t
  end.

Notation "x <- c ;; k" := (bind c (fun x => k))
  (at level 61, c at next level, right associativity).
Notation "c ;;; k" := (bind c (fun _ => k))
  (at level 61, right associativity).

(** [if (c) { throw ... }] as a statement. *)
Definition when (c : bool) (body : completion unit) : completion unit :=
  if c then body else Normal tt.

(** The [typeof] operator. *)
Definition typeof (v : value) : string :=
  match v with
  | VUndefined => "undefined"
  | VNull => "object"
  | VBool _ => "boolean"
  | VNum _ => "number"
  | VStr _ => "string"
  | VArr _ => "object"
  | VObj _ => "object"
  | VFun _ => "function"
  end.

(** [Array.isArray]. *)
Definition Array_isArray (v : value) : bool :=
  match v with VArr _ => true | _ => false end.

(** [v === null] and [v === undefined]. *)
Definition is_null (v : value) : bool :=
  match v with VNull => true | _ => false end.

Definition is_undefined (v : value) : bool :=
  match v with VUndefined => true | _ => false end.

(** ToBoolean. *)
Definition truthy (v : value) : bool :=
  match v with
  | VUndefined | VNull => false
  | VBool b => b
  | VNum n => negb (n =? 0)%Z
  | VStr s => negb (s =? "")
  | VArr _ | VObj _ | VFun _ => true
  end.

(** Own property lookup, first match. *)
Fixpoint lookup (k : string) (o : props) : option value :=
  match o with
  | [] => None
  | (k', v) :: o' => if k' =? k then Some v else lookup k o'
  end.

Definition own (o : props) (k : string) : value :=
  match lookup k o with Some v => v | None => VUndefined end.

(** Property read [v.k], for the keys the program reads: [id],
    [definition], [plugins], [includes], [join] (own properties of an
    object, inherited by no value from a built-in prototype other than
    arrays and strings, which the program reads none of them from) and
    [length] of arrays and strings.  The [length] of a function is not
    modelled: the program reads [length] of the raw [plugins] only after the
    validator has accepted it, as [undefined] or an array
    ([raw_plugins_shape] below). *)
Definition Get (v : value) (k : string) : completion value :=
  match v with
  | VUndefined | VNull => Throw (TypeError (CannotReadProperty k v))
  | VObj o => Normal (own o k)
  | VArr l => Normal (if k =? "length" then VNum (Z.of_nat (length l)) else VUndefined)
  | VStr s => Normal (if k =? "length" then VNum (Z.of_nat (String.length s)) else VUndefined)
  | VBool _ | VNum _ | VFun _ => Normal VUndefined
  end.

(** [Object.keys]. *)
Definition Object_keys (o : props) : list string := map fst o.

(** [target[k] = v]: overwrite in place, or append a new property. *)
Fixpoint set_prop (o : props) (k : string) (v : value) : props :=
  match o with
  | [] => [(k, v)]
  | (k', v') :: o' => if k' =? k then (k', v) :: o' else (k', v') :: set_prop o' k v
  end.

(** The values a [for ... of] loop visits. *)
Definition iterate (v : value) : completion (list value) :=
  match v with
  | VArr l => Normal l
  | VStr s => Normal (map (fun c => VStr (String c EmptyString)) (list_ascii_of_string s))
  | _ => Throw (TypeError (NotIterable v))
  end.

(** A destructuring parameter with a default: the default is taken when the
    property is missing or [undefined]. *)
Definition param (o : props) (k : string) (default : value) : value :=
  if is_undefined (own o k) then default else own o k.

(** ** Plugin identifiers (lines 65-67) *)

(** The arrow function [p => (typeof p === "string" ? p : p.id)]. *)
Definition plugin_id (p : value) : completion value :=
  if typeof p =? "string" then Normal p else Get p "id".

(** [Array.prototype.map] with a callback that may throw. *)
Fixpoint Array_map (f : value -> completion value) (l : list value) : completion (list value) :=
  match l with
  | [] => Normal []
  | x :: l' => y <- f x ;; ys <- Array_map f l' ;; Normal (y :: ys)
  end.

(** [plugins.map(...)].  The one call site passes a value that
    [Array.isArray] accepted; on another receiver there is no [map] to call
    (a function-valued own property [map] of an object is left out). *)
Definition normalizePluginIds (plugins : value) : completion value :=
  match plugins with
  | VArr l => ids <- Array_map plugin_id l ;; Normal (VArr ids)
  | VUndefined | VNull => Throw (TypeError (CannotReadProperty "map" plugins))
  | _ => Throw (TypeError (NotAFunction "plugins.map"))
  end.

(** ** The options handed to the engine *)

(** The object [processOptions] returns (lines 200-224).  [fix_] is the
    property [fix]. *)
Record CLIEngineOptions : Type := {
  allowInlineConfig : value;
  baseConfig : value;
  cache : value;
  cacheLocation : value;
  configFile : value;
  cwd : value;
  envs : value;
  extensions : value;
  fix_ : value;
  fixTypes : value;
  globInputPaths : value;
  globals : value;
  ignore : value;
  ignorePath : value;
  ignorePattern : value;
  parser : value;
  parserOptions : value;
  plugins : value;
  reportUnusedDisableDirectives : value;
  resolvePluginsRelativeTo : value;
  rulePaths : value;
  rules : value;
  useEslintrc : value
}.

(** The names bound by the parameter pattern of [processOptions]
    (lines 75-97); every other own property goes to [...unknownOptions]. *)
Definition recognized : list string :=
  [ "allowInlineConfig"; "baseConfig"; "cache"; "cacheLocation"; "configFile";
    "cwd"; "envs"; "extensions"; "fix"; "fixTypes"; "globals"; "globInputPaths";
    "ignore"; "ignorePath"; "ignorePattern"; "parser"; "parserOptions";
    "plugins"; "reportUnusedDisableDirectives"; "resolvePluginsRelativeTo";
    "rulePaths"; "rules"; "useEslintrc" ].

Definition mem (k : string) (l : list string) : bool :=
  existsb (String.eqb k) l.

(** The rest element of an object pattern. *)
Definition rest_properties (names : list string) (o : props) : props :=
  filter (fun kv => negb (mem (fst kv) names)) o.

(** ** The host and the engine *)

(** What the program takes from its surroundings: the working directory of
    the process, calls into functions the caller supplied, the wrapped
    engine of [../cli-engine] with its constructor and its [addPlugin]
    method.  The engine is mutable; its state is passed along. *)
Record Host : Type := {
  (* process.cwd() *)
  process_cwd : string;
  (* calling a function object: handle, this, arguments *)
  Call : nat -> value -> list value -> completion value;
  (* ToString of an array, object or function, which runs methods of the
     value, and of a number beyond the safe integers *)
  ToString_object : value -> completion string;
  (* the states of a CLIEngine instance *)
  engine : Type;
  (* new CLIEngine(options) *)
  CLIEngine_new : CLIEngineOptions -> completion engine;
  (* engine.addPlugin(id, definition) *)
  addPlugin : engine -> value -> value -> completion engine;
  (* Object.assign({}, source) when it installs a prototype on the copy (see
     Object_assign): what a parameter pattern then reads of the copy, or
     what a store on the copy throws *)
  assign_with_prototype : props -> completion props
}.

(** Whether the setter of [Object.prototype.__proto__] acts on a value: it
    installs an object or [null] as prototype and ignores anything else. *)
Definition installs_prototype (v : value) : bool :=
  match v with
  | VNull | VArr _ | VObj _ | VFun _ => true
  | VUndefined | VBool _ | VNum _ | VStr _ => false
  end.

(** One store of [Object.assign] on the copy.  Under the name [__proto__]
    the store reaches the setter of [Object.prototype] and creates no
    property; any other name becomes an own property. *)
Definition store (t : props) (kv : string * value) : props :=
  if fst kv =? "__proto__" then t else set_prop t (fst kv) (snd kv).

(** [Object.assign({}, source)] for an object [source]: its own properties
    are stored on the fresh object one after the other.  When [source] has
    an own property named [__proto__] whose value the setter installs as
    prototype, the copy is no longer an object as this file models them and
    is left to the host. *)
Definition Object_assign (h : Host) (source : props) : completion props :=
  if installs_prototype (own source "__proto__")
  then assign_with_prototype h source
  else Normal (fold_left store source []).

(** ToString, as a template literal applies it to a substitution.  A
    number is printed here by its digits when it is a safe integer, where
    the digits are what JavaScript prints; a larger one is left to the
    host. *)
Definition ToString (h : Host) (v : value) : completion string :=
  match v with
  | VUndefined => Normal "undefined"
  | VNull => Normal "null"
  | VBool true => Normal "true"
  | VBool false => Normal "false"
  | VNum n =>
      if (Z.abs n <=? 9007199254740991)%Z
      then Normal (NilZero.string_of_int (Z.to_int n))
      else ToString_object h v
  | VStr s => Normal s
  | VArr _ | VObj _ | VFun _ => ToString_object h v
  end.

(** The method call [receiver.name(args)] on an object; [expr] is the
    source text of the callee. *)
Definition call_method (h : Host) (expr : string) (receiver : props) (name : string)
    (args : list value) : completion value :=
  match own receiver name with
  | VFun f => Call h f (VObj receiver) args
  | _ => Throw (TypeError (NotAFunction expr))
  end.

(** The template literal of lines 101-105. *)
Definition unknown_options_message (h : Host) (unknownOptions : props) : completion string :=
  deprecated <- call_method h "unknownOptions.includes" unknownOptions "includes" [VStr "cacheFile"] ;;
  joined <- call_method h "unknownOptions.join" unknownOptions "join" [VStr ", "] ;;
  listed <- ToString h joined ;;
  Normal ((if truthy deprecated
           then "cacheFile has been deprecated. Please use the cacheLocation option instead. "
           else "")
          ++ "Unknown options given: " ++ listed ++ ".")%string.

(** Lines 124-126, the check on [configFile]. *)
Definition check_configFile (configFile cacheLocation : value) : completion unit :=
  when (negb (typeof configFile =? "string") && negb (is_null cacheLocation))
       (Throw (Error "configFile must be a string or null.")).

(** ** processOptions (lines 74-225) *)
Definition processOptions (h : Host) (options : props) : completion CLIEngineOptions :=
  let allowInlineConfig := param options "allowInlineConfig" (VBool true) in
  let baseConfig := param options "baseConfig" VNull in
  let cache := param options "cache" (VBool false) in
  let cacheLocation := param options "cacheLocation" (VStr ".eslintcache") in
  let configFile := param options "configFile" VNull in
  let cwd := param options "cwd" (VStr (process_cwd h)) in
  let envs := param options "envs" (VArr []) in
  let extensions := param options "extensions" VNull in
  let fix_ := param options "fix" (VBool false) in
  let fixTypes := param options "fixTypes" (VArr [VStr "problem"; VStr "suggestion"; VStr "layout"]) in
  let globals := param options "globals" (VArr []) in
  let globInputPaths := param options "globInputPaths" (VBool true) in
  let ignore := param options "ignore" (VBool true) in
  let ignorePath := param options "ignorePath" VNull in
  let ignorePattern := param options "ignorePattern" (VArr []) in
  let parser := param options "parser" (VStr "espree") in
  let parserOptions := param options "parserOptions" VNull in
  let plugins := param options "plugins" (VArr []) in
  let reportUnusedDisableDirectives := param options "reportUnusedDisableDirectives" (VBool false) in
  let resolvePluginsRelativeTo := param options "resolvePluginsRelativeTo" cwd in
  let rulePaths := param options "rulePaths" (VArr []) in
  let rules := param options "rules" VNull in
  let useEslintrc := param options "useEslintrc" (VBool true) in
  let unknownOptions := rest_properties recognized options in
  when (1 <=? length (Object_keys unknownOptions))%nat
       (message <- unknown_options_message h unknownOptions ;; Throw (Error message)) ;;;
  when (negb (typeof allowInlineConfig =? "boolean"))
       (Throw (Error "allowInlineConfig must be a boolean.")) ;;;
  when (negb (typeof baseConfig =? "object"))
       (Throw (Error "baseConfig must be an object or null.")) ;;;
  when (negb (typeof cache =? "boolean"))
       (Throw (Error "cache must be a boolean.")) ;;;
  when (negb (typeof cacheLocation =? "string"))
       (Throw (Error "cacheLocation must be a string.")) ;;;
  check_configFile configFile cacheLocation ;;;
  when (negb (typeof cwd =? "string"))
       (Throw (Error "cwd must be a string.")) ;;;
  when (negb (Array_isArray envs))
       (Throw (Error "envs must be an array.")) ;;;
  when (negb (Array_isArray extensions) && negb (is_null extensions))
       (Throw (Error "extensions must be an array or null.")) ;;;
  when (negb (typeof fix_ =? "boolean"))
       (Throw (Error "fix must be a boolean.")) ;;;
  when (negb (Array_isArray fixTypes))
       (Throw (Error "fixTypes must be an array.")) ;;;
  when (negb (Array_isArray globals))
       (Throw (Error "globals must be an array.")) ;;;
  when (negb (typeof globInputPaths =? "boolean"))
       (Throw (Error "globInputPaths must be a boolean.")) ;;;
  when (negb (typeof ignore =? "boolean"))
       (Throw (Error "globInputPaths must be a boolean.")) ;;;
  when (negb (typeof ignorePath =? "string") && negb (is_null ignorePath))
       (Throw (Error "ignorePath must be a string or null.")) ;;;
  when (negb (typeof ignorePattern =? "string") && negb (Array_isArray ignorePattern))
       (Throw (Error "ignorePattern must be a string or an array of strings.")) ;;;
  when (negb (typeof parser =? "string"))
       (Throw (Error "parser must be a string.")) ;;;
  when (negb (typeof parserOptions =? "object"))
       (Throw (Error "parserOptions must be an object or null.")) ;;;
  when (negb (Array_isArray plugins))
       (Throw (Error "plugins must be an array.")) ;;;
  when (negb (typeof reportUnusedDisableDirectives =? "boolean"))
       (Throw (Error "reportUnusedDisableDirectives must be a boolean.")) ;;;
  when (negb (typeof resolvePluginsRelativeTo =? "string"))
       (Throw (Error "resolvePluginsRelativeTo must be a string.")) ;;;
  when (negb (Array_isArray rulePaths))
       (Throw (Error "plugins must be an array.")) ;;;
  when (negb (typeof rules =? "object"))
       (Throw (Error "rules must be an object or null.")) ;;;
  when (negb (typeof useEslintrc =? "boolean"))
       (Throw (Error "useElintrc must be a boolean.")) ;;;
  ids <- normalizePluginIds plugins ;;
  Normal {|
    allowInlineConfig := allowInlineConfig;
    baseConfig := baseConfig;
    cache := cache;
    cacheLocation := cacheLocation;
    configFile := configFile;
    cwd := cwd;
    envs := envs;
    extensions := extensions;
    fix_ := fix_;
    fixTypes := fixTypes;
    globInputPaths := globInputPaths;
    globals := globals;
    ignore := ignore;
    ignorePath := ignorePath;
    ignorePattern := ignorePattern;
    parser := parser;
    parserOptions := parserOptions;
    plugins := ids;
    reportUnusedDisableDirectives := reportUnusedDisableDirectives;
    resolvePluginsRelativeTo := resolvePluginsRelativeTo;
    rulePaths := rulePaths;
    rules := rules;
    useEslintrc := useEslintrc
  |}.

(** ** The constructor (lines 233-243) *)

(** The calls made on the engine, in the order they are made. *)
Inductive engine_call : Type :=
| NewCLIEngine (options : CLIEngineOptions)
| AddPlugin (id definition : value).

(** A computation that calls the engine: the calls issued, and how it
    completed. *)
Definition engineM (A : Type) : Type := (list engine_call * completion A)%type.

Definition pure {A : Type} (c : completion A) : engineM A := ([], c).

Definition ebind {A B : Type} (m : engineM A) (k : A -> engineM B) : engineM B :=
  match m with
  | (calls, Normal a) => let (calls', r) := k a in (calls ++ calls', r)
  | (calls, Throw t) => (calls, Throw t)
  end.

Notation "x <~ m ;; k" := (ebind m (fun x => k))
  (at level 61, m at next level, right associativity).

Definition calls {A : Type} (m : engineM A) : list engine_call := fst m.
Definition outcome {A : Type} (m : engineM A) : completion A := snd m.

Definition new_CLIEngine (h : Host) (options : CLIEngineOptions) : engineM (engine h) :=
  ([NewCLIEngine options], CLIEngine_new h options).

Definition call_addPlugin (h : Host) (e : engine h) (id definition : value) : engineM (engine h) :=
  ([AddPlugin id definition], addPlugin h e id definition).

(** The body of the loop, lines 238-240. *)
Definition register_plugin (h : Host) (e : engine h) (plugin : value) : engineM (engine h) :=
  if (typeof plugin =? "object") && negb (is_null plugin) then
    id <~ pure (Get plugin "id") ;;
    definition <~ pure (Get plugin "definition") ;;
    call_addPlugin h e id definition
  else pure (Normal e).

(** [for (const x of l) body], the engine going from one round to the next. *)
Fixpoint for_of {E : Type} (body : E -> value -> engineM E) (e : E) (l : list value) : engineM E :=
  match l with
  | [] => pure (Normal e)
  | x :: l' => e' <~ body e x ;; for_of body e' l'
  end.

(** An instance of the class. *)
Record ESLint (h : Host) : Type := { _cliEngine : engine h }.
Arguments _cliEngine {h} _.

Definition constructor (h : Host) (options : props) : engineM (ESLint h) :=
  copy <~ pure (Object_assign h options) ;;
  processed <~ pure (processOptions h copy) ;;
  e <~ new_CLIEngine h processed ;;
  plugins <~ pure (Get (VObj options) "plugins") ;;
  len <~ pure (Get plugins "length") ;;
  e' <~ (if truthy len
         then l <~ pure (iterate plugins) ;; for_of (register_plugin h) e l
         else pure (Normal e)) ;;
  pure (Normal {| _cliEngine := e' |}).

(** A host whose engine accepts everything and keeps the plugins it was
    given; caller-supplied functions return [undefined], and a prototype
    installed on the copy of the options brings no property. *)
Definition recording_host : Host := {|
  process_cwd := "/work";
  Call := fun _ _ _ => Normal VUndefined;
  ToString_object := fun _ => Normal "[object Object]";
  engine := list (value * value);
  CLIEngine_new := fun _ => Normal [];
  addPlugin := fun e id definition => Normal (e ++ [(id, definition)]);
  assign_with_prototype := fun source => Normal (fold_left store source [])
|}.

(** ** The validation rules as the specification tabulates them *)

(** The type constraints of section 4.1. *)
Definition boolean (v : value) : bool := typeof v =? "boolean".
Definition a_string (v : value) : bool := typeof v =? "string".
Definition an_array (v : value) : bool := Array_isArray v.
Definition object_or_null (v : value) : bool := typeof v =? "object".
Definition array_or_null (v : value) : bool := Array_isArray v || is_null v.
Definition string_or_null (v : value) : bool := (typeof v =? "string") || is_null v.
Definition string_or_array (v : value) : bool := (typeof v =? "string") || Array_isArray v.

(** One line of the table: the field, its default (the default of
    [resolvePluginsRelativeTo] is read from the record), what its value must
    satisfy (the rule of [configFile] reads [cacheLocation]), and the
    failure of the guard that enforces it. *)
Record rule : Type := {
  field : string;
  default : Host -> props -> value;
  accepts : props -> value -> bool;
  failure : thrown
}.

Definition plain (name : string) (d : value) (constraint : value -> bool)
    (message : string) : rule :=
  {| field := name;
     default := fun _ _ => d;
     accepts := fun _ => constraint;
     failure := Error message |}.

Definition field_rules : list rule :=
  [ plain "allowInlineConfig" (VBool true) boolean "allowInlineConfig must be a boolean.";
    plain "baseConfig" VNull object_or_null "baseConfig must be an object or null.";
    plain "cache" (VBool false) boolean "cache must be a boolean.";
    plain "cacheLocation" (VStr ".eslintcache") a_string "cacheLocation must be a string.";
    {| field := "configFile";
       default := fun _ _ => VNull;
       accepts := fun o v =>
         a_string v || is_null (param o "cacheLocation" (VStr ".eslintcache"));
       failure := Error "configFile must be a string or null." |};
    {| field := "cwd";
       default := fun h _ => VStr (process_cwd h);
       accepts := fun _ => a_string;
       failure := Error "cwd must be a string." |};
    plain "envs" (VArr []) an_array "envs must be an array.";
    plain "extensions" VNull array_or_null "extensions must be an array or null.";
    plain "fix" (VBool false) boolean "fix must be a boolean.";
    plain "fixTypes" (VArr [VStr "problem"; VStr "suggestion"; VStr "layout"]) an_array
      "fixTypes must be an array.";
    plain "globals" (VArr []) an_array "globals must be an array.";
    plain "globInputPaths" (VBool true) boolean "globInputPaths must be a boolean.";
    plain "ignore" (VBool true) boolean "globInputPaths must be a boolean.";
    plain "ignorePath" VNull string_or_null "ignorePath must be a string or null.";
    plain "ignorePattern" (VArr []) string_or_array
      "ignorePattern must be a string or an array of strings.";
    plain "parser" (VStr "espree") a_string "parser must be a string.";
    plain "parserOptions" VNull object_or_null "parserOptions must be an object or null.";
    plain "plugins" (VArr []) an_array "plugins must be an array.";
    plain "reportUnusedDisableDirectives" (VBool false) boolean
      "reportUnusedDisableDirectives must be a boolean.";
    {| field := "resolvePluginsRelativeTo";
       default := fun h o => param o "cwd" (VStr (process_cwd h));
       accepts := fun _ => a_string;
       failure := Error "resolvePluginsRelativeTo must be a string." |};
    plain "rulePaths" (VArr []) an_array "plugins must be an array.";
    plain "rules" VNull object_or_null "rules must be an object or null.";
    plain "useEslintrc" (VBool true) boolean "useElintrc must be a boolean." ].

(** The value a field has once its default is applied. *)
Definition supplied (h : Host) (o : props) (r : rule) : value :=
  param o (field r) (default r h o).

Definition violated (h : Host) (o : props) (r : rule) : bool :=
  negb (accepts r o (supplied h o r)).

Definition has_unknown (o : props) : bool :=
  negb (forallb (fun k => mem k recognized) (Object_keys o)).

(** A violation: a field outside the recognized set, or a field rule. *)
Inductive violation : Type :=
| UnknownFields
| Field (r : rule).

(** The first violation in the enumeration order: unknown fields, then the
    field rules from [allowInlineConfig] to [useEslintrc]. *)
Definition first_violation (h : Host) (o : props) : option violation :=
  if has_unknown o then Some UnknownFields
  else option_map Field (find (violated h o) field_rules).

(** What the guard of a violation throws. *)
Definition raised (h : Host) (o : props) (v : violation) : thrown :=
  match v with
  | UnknownFields =>
      match unknown_options_message h (rest_properties recognized o) with
      | Normal message => Error message
      | Throw t => t
      end
  | Field r => failure r
  end.

(** Whether the failure of a rule is an [Error] whose message starts with
    the name of the rule's own field. *)
Definition names_its_field (r : rule) : bool :=
  match failure r with
  | Error message => prefix (field r ++ " ") message
  | _ => false
  end.

(** The returned object read back as an options record, its properties in
    the order of the object literal of lines 200-224. *)
Definition to_props (r : CLIEngineOptions) : props :=
  [ ("allowInlineConfig", allowInlineConfig r);
    ("baseConfig", baseConfig r);
    ("cache", cache r);
    ("cacheLocation", cacheLocation r);
    ("configFile", configFile r);
    ("cwd", cwd r);
    ("envs", envs r);
    ("extensions", extensions r);
    ("fix", fix_ r);
    ("fixTypes", fixTypes r);
    ("globInputPaths", globInputPaths r);
    ("globals", globals r);
    ("ignore", ignore r);
    ("ignorePath", ignorePath r);
    ("ignorePattern", ignorePattern r);
    ("parser", parser r);
    ("parserOptions", parserOptions r);
    ("plugins", plugins r);
    ("reportUnusedDisableDirectives", reportUnusedDisableDirectives r);
    ("resolvePluginsRelativeTo", resolvePluginsRelativeTo r);
    ("rulePaths", rulePaths r);
    ("rules", rules r);
    ("useEslintrc", useEslintrc r) ].

(** Every recognized field is supplied. *)
Definition fully_populated (o : props) : bool :=
  forallb (fun k => negb (is_undefined (own o k))) recognized.

(** A plugin reference of the declared type [string | PluginElement]: a
    string, or an object whose [id] is a string. *)
Definition plugin_reference (p : value) : bool :=
  match p with
  | VStr _ => true
  | VObj o => typeof (own o "id") =? "string"
  | _ => false
  end.

Definition plugin_references (v : value) : bool :=
  match v with
  | VArr l => forallb plugin_reference l
  | _ => false
  end.

(** The registration call an entry of the raw [plugins] array gives rise
    to, if any. *)
Definition registration (p : value) : list engine_call :=
  match p with
  | VObj o => [AddPlugin (own o "id") (own o "definition")]
  | VArr _ => [AddPlugin VUndefined VUndefined]
  | _ => []
  end.

(** The parameters of [processOptions] after their defaults, as the object
    of lines 200-224 holds them, with [ids] for the normalized plugins. *)
Definition bound (h : Host) (o : props) (ids : value) : CLIEngineOptions := {|
  allowInlineConfig := param o "allowInlineConfig" (VBool true);
  baseConfig := param o "baseConfig" VNull;
  cache := param o "cache" (VBool false);
  cacheLocation := param o "cacheLocation" (VStr ".eslintcache");
  configFile := param o "configFile" VNull;
  cwd := param o "cwd" (VStr (process_cwd h));
  envs := param o "envs" (VArr []);
  extensions := param o "extensions" VNull;
  fix_ := param o "fix" (VBool false);
  fixTypes := param o "fixTypes" (VArr [VStr "problem"; VStr "suggestion"; VStr "layout"]);
  globInputPaths := param o "globInputPaths" (VBool true);
  globals := param o "globals" (VArr []);
  ignore := param o "ignore" (VBool true);
  ignorePath := param o "ignorePath" VNull;
  ignorePattern := param o "ignorePattern" (VArr []);
  parser := param o "parser" (VStr "espree");
  parserOptions := param o "parserOptions" VNull;
  plugins := ids;
  reportUnusedDisableDirectives := param o "reportUnusedDisableDirectives" (VBool false);
  resolvePluginsRelativeTo :=
    param o "resolvePluginsRelativeTo" (param o "cwd" (VStr (process_cwd h)));
  rulePaths := param o "rulePaths" (VArr []);
  rules := param o "rules" VNull;
  useEslintrc := param o "useEslintrc" (VBool true)
|}.

(** A record that supplies every recognized field with a value of its
    declared type, around a given [plugins]. *)
Definition populated (plugins : value) : props :=
  [ ("allowInlineConfig", VBool true);
    ("baseConfig", VObj []);
    ("cache", VBool false);
    ("cacheLocation", VStr ".eslintcache");
    ("configFile", VStr ".eslintrc.json");
    ("cwd", VStr "/work");
    ("envs", VArr [VStr "node"]);
    ("extensions", VArr [VStr ".js"]);
    ("fix", VBool false);
    ("fixTypes", VArr [VStr "problem"]);
    ("globals", VArr []);
    ("globInputPaths", VBool true);
    ("ignore", VBool true);
    ("ignorePath", VStr ".eslintignore");
    ("ignorePattern", VArr []);
    ("parser", VStr "espree");
    ("parserOptions", VObj []);
    ("plugins", plugins);
    ("reportUnusedDisableDirectives", VBool false);
    ("resolvePluginsRelativeTo", VStr "/work");
    ("rulePaths", VArr []);
    ("rules", VObj []);
    ("useEslintrc", VBool true) ].

(** The plugins of the example of section 8: a bare identifier and an
    identifier with its definition. *)
Definition foo_and_bar : value :=
  VArr [VStr "foo"; VObj [("id", VStr "bar"); ("definition", VObj [])]].

(** A record with two wrongly typed fields. *)
Definition mistyped : props := [("cache", VStr "yes"); ("envs", VStr "x")].

(** [null] or [undefined]: the values no property can be read from. *)
Definition nullish (v : value) : bool := is_null v || is_undefined v.

(** The identifier an entry of [plugins] stands for: the entry itself when
    it is a string, else what its [id] reads as. *)
Definition entry_id (p : value) : value :=
  match p with
  | VStr _ => p
  | VObj o => own o "id"
  | _ => VUndefined
  end.

(** The same host, the process in another working directory. *)
Definition with_cwd (h : Host) (dir : string) : Host := {|
  process_cwd := dir;
  Call := Call h;
  ToString_object := ToString_object h;
  engine := engine h;
  CLIEngine_new := CLIEngine_new h;
  addPlugin := addPlugin h;
  assign_with_prototype := assign_with_prototype h
|}.


Definition is_registration (c : engine_call) : bool :=
  match c with AddPlugin _ _ => true | NewCLIEngine _ => false end.


(** A host whose engine cannot be created. *)
Definition refusing_host : Host := {|
  process_cwd := "/work";
  Call := fun _ _ _ => Normal VUndefined;
  ToString_object := fun _ => Normal "[object Object]";
  engine := unit;
  CLIEngine_new := fun _ => Throw (Foreign (VStr "no engine"));
  addPlugin := fun _ _ _ => Normal tt;
  assign_with_prototype := fun source => Normal (fold_left store source [])
|}.

(** A host whose engine refuses a plugin whose definition is not an
    object. *)
Definition strict_host : Host := {|
  process_cwd := "/work";
  Call := fun _ _ _ => Normal VUndefined;
  ToString_object := fun _ => Normal "[object Object]";
  engine := list (value * value);
  CLIEngine_new := fun _ => Normal [];
  addPlugin := fun e id definition =>
    if (typeof definition =? "object") && negb (is_null definition)
    then Normal (e ++ [(id, definition)])
    else Throw (Foreign (VStr "definition must be an object"));
  assign_with_prototype := fun source => Normal (fold_left store source [])
|}.

(** * Properties *)

(** ** Objects *)

Lemma rest_keys_unknown (o : props) :
  (1 <=? length (Object_keys (rest_properties recognized o)))%nat = has_unknown o.
Proof.
  unfold has_unknown, Object_keys, rest_properties.
  induction o as [|[k v] o IH]; [reflexivity|].
  cbn [filter map forallb fst].
  destruct (mem k recognized) eqn:Hk; cbn [negb andb].
  - exact IH.
  - reflexivity.
Qed.

Lemma rest_known (o : props) :
  has_unknown o = false -> rest_properties recognized o = [].
Proof.
  intros H. rewrite <- rest_keys_unknown in H.
  destruct (rest_properties recognized o); [reflexivity|discriminate].
Qed.

Lemma set_prop_fresh (t : props) (k : string) (v : value) :
  ~ In k (Object_keys t) -> set_prop t k v = t ++ [(k, v)].
Proof.
  induction t as [|[k' v'] t IH]; intros Hk; [reflexivity|].
  cbn [set_prop app]. cbn [Object_keys map fst In] in Hk.
  destruct (k' =? k) eqn:E.
  - apply String.eqb_eq in E. tauto.
  - rewrite IH; [reflexivity|]. unfold Object_keys. tauto.
Qed.

Lemma store_fresh (source target : props) :
  NoDup (Object_keys (target ++ source)) ->
  mem "__proto__" (Object_keys source) = false ->
  fold_left store source target = target ++ source.
Proof.
  revert target. induction source as [|[k v] source IH]; intros target Hd Hp.
  - cbn [fold_left]. now rewrite app_nil_r.
  - cbn [fold_left].
    unfold mem in Hp. cbn [Object_keys map fst existsb] in Hp.
    apply orb_false_elim in Hp. destruct Hp as [Hk Hp].
    assert (Hfresh : ~ In k (Object_keys target)).
    { unfold Object_keys in *. rewrite map_app in Hd. cbn [map fst] in Hd.
      apply NoDup_remove_2 in Hd. intros Hin. apply Hd.
      apply in_or_app. now left. }
    unfold store at 2. cbn [fst snd]. rewrite String.eqb_sym, Hk.
    rewrite (set_prop_fresh _ _ _ Hfresh).
    rewrite IH; [now rewrite <- app_assoc|now rewrite <- app_assoc|exact Hp].
Qed.

Lemma no_proto_absent (o : props) :
  mem "__proto__" (Object_keys o) = false -> lookup "__proto__" o = None.
Proof.
  induction o as [|[k v] o IH]; [reflexivity|].
  unfold mem. cbn [Object_keys map fst existsb lookup]. intros H.
  apply orb_false_elim in H. destruct H as [Hk H].
  rewrite String.eqb_sym, Hk. exact (IH H).
Qed.

(** Copying a well-formed object that has no property named [__proto__]
    into a fresh one gives the same properties in the same order. *)
Lemma Object_assign_copy (h : Host) (o : props) :
  NoDup (Object_keys o) ->
  mem "__proto__" (Object_keys o) = false ->
  Object_assign h o = Normal o.
Proof.
  intros Hd Hp. unfold Object_assign, own.
  rewrite (no_proto_absent o Hp). cbn [installs_prototype].
  now rewrite (store_fresh o [] Hd Hp).
Qed.

(** A record of recognized fields has no property named [__proto__]. *)
Lemma known_no_proto (o : props) :
  has_unknown o = false -> mem "__proto__" (Object_keys o) = false.
Proof.
  unfold has_unknown. intros H. apply negb_false_iff in H.
  rewrite forallb_forall in H.
  destruct (mem "__proto__" (Object_keys o)) eqn:E; [|reflexivity].
  unfold mem in E. apply existsb_exists in E. destruct E as [k [Hk E]].
  apply String.eqb_eq in E. subst k. specialize (H _ Hk). discriminate H.
Qed.

Lemma find_first {A : Type} (f : A -> bool) (l : list A) (x : A) :
  find f l = Some x ->
  exists before after,
    l = before ++ x :: after /\ (forall y, In y before -> f y = false) /\ f x = true.
Proof.
  induction l as [|a l IH]; [discriminate|].
  cbn [find]. destruct (f a) eqn:Ha.
  - intros [= ->]. exists [], l. repeat split; [intros y []|exact Ha].
  - intros H. destruct (IH H) as [before [after [-> [Hb Hx]]]].
    exists (a :: before), after. repeat split; [|exact Hx].
    intros y [<-|Hy]; [exact Ha|exact (Hb y Hy)].
Qed.

Lemma lookup_absent (o : props) (k : string) :
  lookup k o = None -> ~ In k (Object_keys o).
Proof.
  induction o as [|[k' v'] o IH]; [intros _ []|].
  cbn [lookup Object_keys map fst In]. destruct (k' =? k) eqn:E; [discriminate|].
  intros H [Hk|Hk]; [|exact (IH H Hk)].
  subst k'. rewrite String.eqb_refl in E. discriminate.
Qed.

Lemma lookup_app (o o' : props) (k : string) :
  lookup k (o ++ o') = match lookup k o with Some v => Some v | None => lookup k o' end.
Proof.
  induction o as [|[k' v'] o IH]; [reflexivity|].
  cbn [app lookup]. destruct (k' =? k); [reflexivity|exact IH].
Qed.

Lemma own_absent (o : props) (k : string) :
  lookup k o = None -> own o k = VUndefined.
Proof.
  unfold own. now intros ->.
Qed.

(** A property added at the end does not change the reading of another
    name. *)
Lemma param_app_other (o : props) (k k' : string) (v d : value) :
  (k' =? k) = false -> param (o ++ [(k', v)]) k d = param o k d.
Proof.
  intros E. unfold param, own. rewrite lookup_app. cbn [lookup]. rewrite E.
  destruct (lookup k o); reflexivity.
Qed.

Lemma rest_app_known (o : props) (k : string) (v : value) :
  mem k recognized = true ->
  rest_properties recognized (o ++ [(k, v)]) = rest_properties recognized o.
Proof.
  intros Hk. unfold rest_properties. rewrite filter_app. cbn [filter fst].
  rewrite Hk. cbn [negb]. apply app_nil_r.
Qed.

Lemma param_idem (o : props) (k : string) (d : value) :
  (if is_undefined (param o k d) then d else param o k d) = param o k d.
Proof.
  unfold param. destruct (is_undefined (own o k)) eqn:E.
  - destruct (is_undefined d); reflexivity.
  - rewrite E. reflexivity.
Qed.

Lemma find_nowhere {A : Type} (f : A -> bool) (l : list A) :
  (forall x, In x l -> f x = false) -> find f l = None.
Proof.
  induction l as [|a l IH]; intros H; [reflexivity|].
  cbn [find]. rewrite (H a (or_introl eq_refl)).
  apply IH. intros x Hx. apply H. now right.
Qed.

(** ** Plugin identifiers *)

Lemma Array_map_strings (l : list value) :
  forallb a_string l = true -> Array_map plugin_id l = Normal l.
Proof.
  induction l as [|p l IH]; [reflexivity|].
  cbn [forallb]. intros H. apply andb_prop in H. destruct H as [Hp Hl].
  cbn [Array_map]. unfold plugin_id at 1. unfold a_string in Hp. rewrite Hp.
  cbn [bind]. rewrite (IH Hl). reflexivity.
Qed.

Lemma Array_map_references (l : list value) :
  forallb plugin_reference l = true ->
  exists ids, Array_map plugin_id l = Normal ids /\ forallb a_string ids = true.
Proof.
  induction l as [|p l IH]; [exists []; split; reflexivity|].
  cbn [forallb]. intros H. apply andb_prop in H. destruct H as [Hp Hl].
  destruct (IH Hl) as [ids [Hids Hs]].
  cbn [Array_map]. rewrite Hids.
  destruct p; try discriminate.
  - exists (VStr s :: ids). split; [reflexivity|]. exact Hs.
  - exists (own props0 "id" :: ids). split; [reflexivity|].
    cbn [forallb]. cbn [plugin_reference] in Hp. unfold a_string at 1.
    rewrite Hp. exact Hs.
Qed.

(** Reading a parameter from the object the validator returned. *)
Ltac read_back :=
  repeat match goal with
  | |- context [param (to_props ?r) ?k ?d] =>
      let v := eval cbv beta iota delta
                 [to_props lookup own String.eqb Ascii.eqb Bool.eqb andb bound
                  allowInlineConfig baseConfig cache cacheLocation configFile cwd
                  envs extensions fix_ fixTypes globInputPaths globals ignore
                  ignorePath ignorePattern parser parserOptions plugins
                  reportUnusedDisableDirectives resolvePluginsRelativeTo rulePaths
                  rules useEslintrc]
               in (own (to_props r) k) in
      change (param (to_props r) k d) with (if is_undefined v then d else v)
  end.

(** One guard of the chain, decided. *)
Ltac decide_guard :=
  lazymatch goal with
  | |- bind (when ?c _) _ = _ =>
      destruct c eqn:?; cbn [when bind negb option_map]; [reflexivity|]
  end.

Section Validator.

Variable h : Host.

(** The guards of the source, run one after the other, and the table read
    from its top agree. *)
Lemma processOptions_table (o : props) :
  processOptions h o =
  match first_violation h o with
  | Some v => Throw (raised h o v)
  | None =>
      ids <- normalizePluginIds (param o "plugins" (VArr [])) ;;
      Normal (bound h o ids)
  end.
Proof.
  unfold processOptions, first_violation, raised, check_configFile.
  cbv zeta.
  rewrite rest_keys_unknown.
  destruct (has_unknown o) eqn:Hu.
  - cbn [when bind]. destruct (unknown_options_message h _); reflexivity.
  - cbn [when bind].
    cbv beta iota delta
      [find field_rules violated supplied plain field default accepts failure
       boolean a_string an_array object_or_null array_or_null string_or_null
       string_or_array].
    rewrite !negb_orb.
    do 23 decide_guard.
    reflexivity.
Qed.

Lemma no_violation (o : props) :
  first_violation h o = None ->
  has_unknown o = false /\ forall r, In r field_rules -> violated h o r = false.
Proof.
  unfold first_violation. intros H.
  destruct (has_unknown o); [discriminate|].
  split; [reflexivity|].
  destruct (find (violated h o) field_rules) eqn:Hf; [discriminate|].
  intros r Hr. exact (find_none _ _ Hf r Hr).
Qed.

Lemma some_violation (o : props) :
  has_unknown o = true \/ (exists r, In r field_rules /\ violated h o r = true) ->
  exists v, first_violation h o = Some v.
Proof.
  intros H. destruct (first_violation h o) as [v|] eqn:Hv; [now exists v|].
  apply no_violation in Hv. destruct Hv as [Hu Hr].
  destruct H as [H|[r [Hin H]]].
  - congruence.
  - rewrite (Hr r Hin) in H. discriminate.
Qed.

(** What a normal return of the validator tells. *)
Lemma processOptions_normal (o : props) (r : CLIEngineOptions) :
  processOptions h o = Normal r ->
  first_violation h o = None /\
  exists ids, normalizePluginIds (param o "plugins" (VArr [])) = Normal ids /\
              r = bound h o ids.
Proof.
  rewrite processOptions_table.
  destruct (first_violation h o); [discriminate|].
  intros H. split; [reflexivity|].
  destruct (normalizePluginIds _) as [ids|]; [|discriminate].
  exists ids. split; [reflexivity|]. cbn [bind] in H. congruence.
Qed.

(** The constructor does not reach the engine when the validator throws. *)
Lemma constructor_rejects (o : props) (t : thrown) :
  NoDup (Object_keys o) ->
  mem "__proto__" (Object_keys o) = false ->
  processOptions h o = Throw t ->
  constructor h o = ([], Throw t).
Proof.
  intros Hd Hn H. unfold constructor.
  rewrite (Object_assign_copy h o Hd Hn). cbn [pure ebind]. rewrite H. reflexivity.
Qed.

(** A record the validator accepts has no property named [__proto__]. *)
Lemma accepted_no_proto (o : props) (r : CLIEngineOptions) :
  processOptions h o = Normal r -> mem "__proto__" (Object_keys o) = false.
Proof.
  intros H. apply processOptions_normal in H. destruct H as [Hv _].
  apply no_violation in Hv. destruct Hv as [Hu _]. exact (known_no_proto o Hu).
Qed.

(** The raw [plugins] of a record the validator accepts. *)
Lemma raw_plugins_shape (o : props) (r : CLIEngineOptions) :
  processOptions h o = Normal r ->
  own o "plugins" = VUndefined \/ exists l, own o "plugins" = VArr l.
Proof.
  intros H. apply processOptions_normal in H. destruct H as [Hv _].
  apply no_violation in Hv. destruct Hv as [_ Hr].
  assert (Hp := Hr (plain "plugins" (VArr []) an_array "plugins must be an array.")
                  ltac:(do 17 right; left; reflexivity)).
  cbv beta iota delta [violated supplied plain field default accepts an_array param] in Hp.
  destruct (own o "plugins"); try (left; reflexivity); try (right; eexists; reflexivity);
    discriminate Hp.
Qed.

(** ** Unknown fields *)

(** C1 (as the code has it): whenever the record holds a field outside the
    recognized set, and the unknown fields do not themselves bring a function
    named [includes], building the message of the unknown-option error calls
    [includes] on the plain object of unknown fields; that is a [TypeError],
    and no message listing the unknown fields (nor the [cacheFile] hint) is
    ever produced.  The constructor throws the same, unless the record has a
    property named [__proto__], which its copy does not keep. *)
Theorem unknown_options_type_error (o : props) :
  has_unknown o = true ->
  (forall f, own (rest_properties recognized o) "includes" <> VFun f) ->
  processOptions h o = Throw (TypeError (NotAFunction "unknownOptions.includes")) /\
  (NoDup (Object_keys o) ->
   mem "__proto__" (Object_keys o) = false ->
   constructor h o = ([], Throw (TypeError (NotAFunction "unknownOptions.includes")))).
Proof.
  intros Hu Hf.
  assert (Hp : processOptions h o
               = Throw (TypeError (NotAFunction "unknownOptions.includes"))).
  { rewrite processOptions_table. unfold first_violation. rewrite Hu.
    unfold raised, unknown_options_message, call_method.
    destruct (own (rest_properties recognized o) "includes") eqn:E;
      try reflexivity.
    exfalso. exact (Hf f eq_refl). }
  split; [exact Hp|]. intros Hd Hn. exact (constructor_rejects o _ Hd Hn Hp).
Qed.

(** ** The empty record *)

(** C2 (as the code has it): the empty record is rejected by the guard of
    [configFile]; once [configFile] is a string, the defaults of [fixTypes],
    [parser] and [resolvePluginsRelativeTo] are the ones stated. *)
Theorem empty_record_rejected :
  processOptions h [] = Throw (Error "configFile must be a string or null.") /\
  constructor h [] = ([], Throw (Error "configFile must be a string or null.")) /\
  forall path, exists r,
    processOptions h [("configFile", VStr path)] = Normal r /\
    fixTypes r = VArr [VStr "problem"; VStr "suggestion"; VStr "layout"] /\
    parser r = VStr "espree" /\
    resolvePluginsRelativeTo r = VStr (process_cwd h) /\
    resolvePluginsRelativeTo r = cwd r.
Proof.
  split; [reflexivity|]. split; [reflexivity|].
  intros path. eexists. split; [reflexivity|]. cbn. repeat split.
Qed.

(** ** Messages of the type checks *)

(** C3 (as the code has it): a wrongly typed [ignore], [rulePaths] or
    [useEslintrc], every other field valid, fails with a message that names
    another field or none; these three are the only guards whose message
    does not start with the name of their field. *)
Theorem mismatch_messages :
  processOptions h [("configFile", VStr "c"); ("ignore", VStr "yes")]
    = Throw (Error "globInputPaths must be a boolean.") /\
  processOptions h [("configFile", VStr "c"); ("rulePaths", VNum 5)]
    = Throw (Error "plugins must be an array.") /\
  processOptions h [("configFile", VStr "c"); ("useEslintrc", VStr "no")]
    = Throw (Error "useElintrc must be a boolean.") /\
  map field (filter (fun r => negb (names_its_field r)) field_rules)
    = ["ignore"; "rulePaths"; "useEslintrc"].
Proof.
  repeat split.
Qed.

(** ** The check on configFile *)

(** C4: the check on [configFile] lets a string through whatever
    [cacheLocation] is, lets a value that is not a string through exactly
    when [cacheLocation] is [null], and otherwise throws an error whose
    message starts with [configFile]; with [cacheLocation] at its default,
    a [configFile] of [null], given or defaulted, is rejected. *)
Theorem configFile_check :
  (forall s cacheLocation, check_configFile (VStr s) cacheLocation = Normal tt) /\
  (forall configFile cacheLocation,
     typeof configFile <> "string" ->
     (check_configFile configFile cacheLocation = Normal tt <-> cacheLocation = VNull)) /\
  (forall configFile cacheLocation,
     check_configFile configFile cacheLocation = Normal tt \/
     check_configFile configFile cacheLocation
       = Throw (Error "configFile must be a string or null.")) /\
  prefix "configFile " "configFile must be a string or null." = true /\
  check_configFile VNull (VStr ".eslintcache")
    = Throw (Error "configFile must be a string or null.") /\
  processOptions h [("cacheLocation", VStr ".eslintcache"); ("configFile", VNull)]
    = Throw (Error "configFile must be a string or null.") /\
  processOptions h [("configFile", VNull)]
    = Throw (Error "configFile must be a string or null.") /\
  processOptions h []
    = Throw (Error "configFile must be a string or null.").
Proof.
  split; [reflexivity|]. split; [|split].
  - intros configFile cacheLocation Hs. unfold check_configFile, when.
    destruct (typeof configFile =? "string") eqn:E.
    + apply String.eqb_eq in E. contradiction.
    + cbn [negb andb]. destruct cacheLocation; cbn [is_null negb];
        split; intros H; try reflexivity; try discriminate.
  - intros configFile cacheLocation. unfold check_configFile, when.
    destruct (_ && _); [right|left]; reflexivity.
  - repeat split.
Qed.

(** C10: a record the validator returns has a string for [configFile]: the
    guard of [cacheLocation] has left a string there, so the guard of
    [configFile] could only pass on a string. *)
Theorem configFile_is_string (o : props) (r : CLIEngineOptions) :
  processOptions h o = Normal r ->
  typeof (configFile r) = "string" /\ configFile r <> VNull.
Proof.
  intros H. apply processOptions_normal in H.
  destruct H as [Hv [ids [_ ->]]].
  apply no_violation in Hv. destruct Hv as [_ Hr].
  assert (Hloc := Hr _ (or_intror (or_intror (or_intror (or_introl eq_refl))))).
  assert (Hcf := Hr _ (or_intror (or_intror (or_intror (or_intror (or_introl eq_refl)))))).
  cbv beta iota delta [violated supplied plain field default accepts a_string] in Hloc, Hcf.
  cbn [bound configFile].
  destruct (typeof (param o "configFile" VNull) =? "string") eqn:E.
  - apply String.eqb_eq in E. split; [exact E|].
    intros Hn. rewrite Hn in E. discriminate.
  - exfalso.
    destruct (param o "cacheLocation" (VStr ".eslintcache")); discriminate.
Qed.

(** ** Order of the checks *)

(** C8 (amended): a record that violates a rule is rejected by the validator
    at its first violation in the enumeration order: at the guard of the
    unknown fields when there is one, else at the first field rule, from
    [allowInlineConfig] to [useEslintrc], that it violates; when the record
    has no property named [__proto__], the constructor then throws the same
    value without a call to the engine. *)
Theorem first_violation_fails (o : props) :
  has_unknown o = true \/ (exists r, In r field_rules /\ violated h o r = true) ->
  exists v,
    processOptions h o = Throw (raised h o v) /\
    (NoDup (Object_keys o) ->
     mem "__proto__" (Object_keys o) = false ->
     constructor h o = ([], Throw (raised h o v)) /\ calls (constructor h o) = []) /\
    match v with
    | UnknownFields => has_unknown o = true
    | Field r =>
        has_unknown o = false /\
        exists before after,
          field_rules = before ++ r :: after /\
          (forall r', In r' before -> violated h o r' = false) /\
          violated h o r = true
    end /\
    map field field_rules =
      [ "allowInlineConfig"; "baseConfig"; "cache"; "cacheLocation"; "configFile";
        "cwd"; "envs"; "extensions"; "fix"; "fixTypes"; "globals"; "globInputPaths";
        "ignore"; "ignorePath"; "ignorePattern"; "parser"; "parserOptions";
        "plugins"; "reportUnusedDisableDirectives"; "resolvePluginsRelativeTo";
        "rulePaths"; "rules"; "useEslintrc" ].
Proof.
  intros Hv. destruct (some_violation o Hv) as [v Hf]. exists v.
  assert (Hp : processOptions h o = Throw (raised h o v)).
  { rewrite processOptions_table, Hf. reflexivity. }
  split; [exact Hp|]. split.
  - intros Hd Hn. rewrite (constructor_rejects o _ Hd Hn Hp). split; reflexivity.
  - split; [|reflexivity].
    unfold first_violation in Hf. destruct (has_unknown o) eqn:Hu.
    + injection Hf as <-. reflexivity.
    + destruct (find (violated h o) field_rules) as [r|] eqn:Hr; [|discriminate].
      injection Hf as <-. split; [reflexivity|]. exact (find_first _ _ _ Hr).
Qed.

(** ** The constructor and the plugins *)

(** Supplying the default of [plugins] explicitly does not change what the
    validator does. *)
Lemma processOptions_plugins_default (o : props) :
  lookup "plugins" o = None ->
  processOptions h (o ++ [("plugins", VArr [])]) = processOptions h o.
Proof.
  intros Ha.
  assert (Hp : param (o ++ [("plugins", VArr [])]) "plugins" (VArr [])
               = param o "plugins" (VArr [])).
  { unfold param, own. rewrite lookup_app, Ha. reflexivity. }
  unfold processOptions.
  rewrite Hp, (rest_app_known o "plugins" (VArr []) eq_refl).
  rewrite !param_app_other by reflexivity.
  reflexivity.
Qed.

(** C9 (amended): when a record that violates no rule has no [plugins]
    field and the engine's constructor returns, the validator returns the
    record with [plugins] defaulted to the empty array, the engine is
    created with it, and the constructor then throws the [TypeError] of
    reading [length] of [undefined].  With [plugins: []] added to the same
    record the constructor returns, after the same single call on the
    engine. *)
Theorem omitted_plugins_throws (o : props) (e : engine h) :
  NoDup (Object_keys o) ->
  lookup "plugins" o = None ->
  first_violation h o = None ->
  CLIEngine_new h (bound h o (VArr [])) = Normal e ->
  processOptions h o = Normal (bound h o (VArr [])) /\
  constructor h o =
    ([NewCLIEngine (bound h o (VArr []))],
     Throw (TypeError (CannotReadProperty "length" VUndefined))) /\
  constructor h (o ++ [("plugins", VArr [])]) =
    ([NewCLIEngine (bound h o (VArr []))], Normal {| _cliEngine := e |}).
Proof.
  intros Hd Ha Hv He.
  assert (Hown : own o "plugins" = VUndefined) by exact (own_absent _ _ Ha).
  assert (Hn : mem "__proto__" (Object_keys o) = false).
  { apply known_no_proto. exact (proj1 (no_violation o Hv)). }
  assert (Hd' : NoDup (Object_keys (o ++ [("plugins", VArr [])]))).
  { unfold Object_keys. rewrite map_app. cbn [map fst].
    apply NoDup_app. repeat split.
    - exact Hd.
    - constructor; [intros []|constructor].
    - intros k Hk [<-|[]]. exact (lookup_absent _ _ Ha Hk). }
  assert (Hn' : mem "__proto__" (Object_keys (o ++ [("plugins", VArr [])])) = false).
  { unfold mem, Object_keys in *. rewrite map_app, existsb_app, Hn. reflexivity. }
  assert (Hr : processOptions h o = Normal (bound h o (VArr []))).
  { rewrite processOptions_table, Hv. unfold param. rewrite Hown. reflexivity. }
  split; [exact Hr|]. split.
  - unfold constructor, new_CLIEngine. rewrite (Object_assign_copy h o Hd Hn).
    cbn [pure ebind]. rewrite Hr. cbn [pure ebind Get]. rewrite He, Hown.
    reflexivity.
  - unfold constructor, new_CLIEngine. rewrite (Object_assign_copy h _ Hd' Hn').
    cbn [pure ebind]. rewrite (processOptions_plugins_default o Ha), Hr.
    cbn [pure ebind Get]. rewrite He.
    unfold own. rewrite lookup_app, Ha. reflexivity.
Qed.

(** One round of the loop issues the registration of its entry and
    nothing else. *)
Lemma register_plugin_calls (e : engine h) (p : value) :
  calls (register_plugin h e p) = registration p.
Proof.
  destruct p; reflexivity.
Qed.

(** The loop issues registrations entry by entry: what it has issued when
    it stops is an initial part of the registrations of the entries in
    input order, and all of them when no call on the engine throws. *)
Lemma for_of_registrations (l : list value) (e : engine h) :
  (exists later, flat_map registration l
                 = calls (for_of (register_plugin h) e l) ++ later) /\
  ((forall e' id definition, exists e'', addPlugin h e' id definition = Normal e'') ->
   exists e', for_of (register_plugin h) e l = (flat_map registration l, Normal e')).
Proof.
  revert e. induction l as [|p l IH]; intros e.
  - split; [exists []; reflexivity|]. intros _. exists e. reflexivity.
  - cbn [for_of flat_map].
    assert (Hstep : exists c, register_plugin h e p = (registration p, c) /\
              ((forall e' id definition, exists e'', addPlugin h e' id definition = Normal e'')
               -> exists e1, c = Normal e1)).
    { destruct p; try (eexists; split; [reflexivity|]; intros _; eexists; reflexivity).
      all: eexists; split; [reflexivity|]; intros Ht; apply Ht. }
    destruct Hstep as [c [Hc Hok]]. rewrite Hc. split.
    + destruct c as [e1|t]; cbn [ebind calls fst].
      * destruct (IH e1) as [[later Hl] _].
        destruct (for_of (register_plugin h) e1 l) as [cs res] eqn:Hfor.
        cbn [calls fst] in *. exists later. rewrite Hl. now rewrite app_assoc.
      * exists (flat_map registration l). reflexivity.
    + intros Ht. destruct (Hok Ht) as [e1 ->]. cbn [ebind].
      destruct (IH e1) as [_ Hall]. destruct (Hall Ht) as [e' ->].
      exists e'. reflexivity.
Qed.

(** C5: for a record whose [plugins] is ["foo", { id: "bar", definition: {} }]
    and that violates no rule, the validator returns a record whose
    [plugins] is ["foo", "bar"]; once the engine is created, the constructor
    makes one registration call and no more, [addPlugin("bar", {})].  For
    any array of plugins, the registration calls follow the engine's
    creation in the order of the entries. *)
Theorem plugins_example :
  (forall o,
     NoDup (Object_keys o) ->
     own o "plugins" = VArr [VStr "foo"; VObj [("id", VStr "bar"); ("definition", VObj [])]] ->
     first_violation h o = None ->
     exists r,
       processOptions h o = Normal r /\
       plugins r = VArr [VStr "foo"; VStr "bar"] /\
       forall e, CLIEngine_new h r = Normal e ->
         calls (constructor h o) = [NewCLIEngine r; AddPlugin (VStr "bar") (VObj [])]) /\
  (forall o l r e,
     NoDup (Object_keys o) ->
     own o "plugins" = VArr l ->
     processOptions h o = Normal r ->
     CLIEngine_new h r = Normal e ->
     (exists later, NewCLIEngine r :: flat_map registration l
                    = calls (constructor h o) ++ later) /\
     ((forall e' id definition, exists e'', addPlugin h e' id definition = Normal e'') ->
      calls (constructor h o) = NewCLIEngine r :: flat_map registration l)).
Proof.
  split.
  - intros o Hd Hp Hv.
    assert (Hr : processOptions h o
                 = Normal (bound h o (VArr [VStr "foo"; VStr "bar"]))).
    { rewrite processOptions_table, Hv. unfold param. rewrite Hp. reflexivity. }
    eexists. split; [exact Hr|]. split; [reflexivity|].
    intros e He. unfold constructor, new_CLIEngine.
    rewrite (Object_assign_copy h o Hd (accepted_no_proto o _ Hr)).
    cbn [pure ebind]. rewrite Hr. cbn [pure ebind Get]. rewrite He, Hp.
    cbn. destruct (addPlugin h e (VStr "bar") (VObj [])); reflexivity.
  - intros o l r e Hd Hp Hr He.
    unfold constructor, new_CLIEngine.
    rewrite (Object_assign_copy h o Hd (accepted_no_proto o _ Hr)).
    cbn [pure ebind]. rewrite Hr. cbn [pure ebind Get]. rewrite He, Hp.
    destruct l as [|p l].
    + cbn. split; [exists []; reflexivity|]. intros _. reflexivity.
    + assert (Hlen : truthy (VNum (Z.of_nat (length (p :: l)))) = true).
      { cbn [truthy length]. destruct (Z.eqb_spec (Z.of_nat (S (length l))) 0);
          [lia|reflexivity]. }
      change (Get (VArr (p :: l)) "length")
        with (Normal (VNum (Z.of_nat (length (p :: l))))).
      cbv beta iota. rewrite Hlen. cbn [iterate pure ebind app].
      destruct (for_of_registrations (p :: l) e) as [[later Hl] Hall].
      destruct (for_of (register_plugin h) e (p :: l)) as [cs res] eqn:Hfor.
      cbn [calls fst] in Hl. split.
      * destruct res; cbn [calls fst app ebind pure]; exists later;
          rewrite Hl, ?app_nil_r; reflexivity.
      * intros Ht. destruct (Hall Ht) as [e' He']. injection He' as -> ->.
        cbn [calls fst app ebind pure]. now rewrite app_nil_r.
Qed.

(** C6 (amended): a string entry is its own identifier and gives no
    registration call; an object entry gives its [id] as identifier and one
    registration call, for its [id] and its [definition], the latter
    [undefined] when the entry has no such field. *)
Theorem plugin_entry (e : engine h) :
  (forall s,
     plugin_id (VStr s) = Normal (VStr s) /\
     calls (register_plugin h e (VStr s)) = []) /\
  (forall o,
     plugin_id (VObj o) = Normal (own o "id") /\
     calls (register_plugin h e (VObj o))
       = [AddPlugin (own o "id") (own o "definition")]) /\
  (forall o,
     lookup "definition" o = None ->
     calls (register_plugin h e (VObj o)) = [AddPlugin (own o "id") VUndefined]) /\
  (forall p,
     typeof p = "object" -> p <> VNull ->
     plugin_id p = Get p "id" /\
     exists id definition, calls (register_plugin h e p) = [AddPlugin id definition]).
Proof.
  split; [|split; [|split]].
  - intros s. split; reflexivity.
  - intros o. split; reflexivity.
  - intros o Hn. unfold register_plugin. cbn. now rewrite (own_absent _ _ Hn).
  - intros p Ht Hn. split.
    + destruct p; try discriminate; reflexivity.
    + destruct p; try discriminate; try (now destruct Hn);
        eexists; eexists; reflexivity.
Qed.

(** ** A second pass *)

(** The field rules hold of the returned object when they held of the raw
    record. *)
Lemma rules_of_returned (o : props) (l : list value) :
  (forall r, In r field_rules -> violated h o r = false) ->
  forall r, In r field_rules -> violated h (to_props (bound h o (VArr l))) r = false.
Proof.
  intros Hall r Hin. specialize (Hall r Hin). revert Hall.
  cbv beta iota delta [field_rules In] in Hin.
  repeat (destruct Hin as [<-|Hin]); [..|destruct Hin];
    cbv beta iota delta [violated supplied plain field default accepts];
    read_back; rewrite ?param_idem; intros Hall; try exact Hall; reflexivity.
Qed.

Lemma bound_of_returned (o : props) (ids ids' : value) :
  bound h (to_props (bound h o ids)) ids' = bound h o ids'.
Proof.
  unfold bound at 1. read_back. rewrite !param_idem. reflexivity.
Qed.

(** The validator on an object it returned: the guards pass again and the
    plugins are normalized once more. *)
Lemma processOptions_again (o : props) (l : list value) :
  first_violation h o = None ->
  processOptions h (to_props (bound h o (VArr l))) =
  ids <- normalizePluginIds (VArr l) ;; Normal (bound h o ids).
Proof.
  intros Hv. apply no_violation in Hv. destruct Hv as [_ Hr].
  rewrite processOptions_table.
  unfold first_violation.
  change (has_unknown (to_props (bound h o (VArr l)))) with false. cbv iota.
  rewrite (find_nowhere _ _ (rules_of_returned o l Hr)). cbn [option_map].
  read_back. cbn [is_undefined].
  destruct (normalizePluginIds (VArr l)) as [ids|t]; cbn [bind]; [|reflexivity].
  now rewrite bound_of_returned.
Qed.

(** C7 (amended): for a record that supplies every field, violates no
    rule, and whose [plugins] are strings or objects with a string [id],
    the validator returns a record, and the validator applied to that
    record returns it again. *)
Theorem second_pass_same (o : props) :
  fully_populated o = true ->
  first_violation h o = None ->
  plugin_references (own o "plugins") = true ->
  exists r,
    processOptions h o = Normal r /\
    processOptions h (to_props r) = Normal r.
Proof.
  intros _ Hv Hp.
  destruct (own o "plugins") as [| | | | |l| |] eqn:Hown; try discriminate.
  cbn [plugin_references] in Hp.
  destruct (Array_map_references l Hp) as [ids [Hids Hs]].
  assert (Hparam : param o "plugins" (VArr []) = VArr l).
  { unfold param. rewrite Hown. reflexivity. }
  exists (bound h o (VArr ids)). split.
  - rewrite processOptions_table, Hv, Hparam.
    cbn [normalizePluginIds]. rewrite Hids. reflexivity.
  - rewrite (processOptions_again o ids Hv).
    cbn [normalizePluginIds]. rewrite (Array_map_strings ids Hs). reflexivity.
Qed.

End Validator.

(** * Further properties of the validator and the constructor *)

Lemma plugin_id_entry (p : value) :
  plugin_id p =
  if nullish p then Throw (TypeError (CannotReadProperty "id" p))
  else Normal (entry_id p).
Proof.
  destruct p; reflexivity.
Qed.

Lemma Array_map_plugin_id_normal (l : list value) :
  existsb nullish l = false -> Array_map plugin_id l = Normal (map entry_id l).
Proof.
  induction l as [|p l IH]; [reflexivity|].
  cbn [existsb]. intros H. apply orb_false_elim in H. destruct H as [Hp Hl].
  cbn [Array_map map]. rewrite plugin_id_entry, Hp. cbn [bind].
  rewrite (IH Hl). reflexivity.
Qed.

Lemma Array_map_plugin_id_throw (before after : list value) (p : value) :
  existsb nullish before = false ->
  nullish p = true ->
  Array_map plugin_id (before ++ p :: after)
    = Throw (TypeError (CannotReadProperty "id" p)).
Proof.
  induction before as [|q before IH]; intros Hb Hp.
  - cbn [app Array_map]. rewrite plugin_id_entry, Hp. reflexivity.
  - cbn [existsb] in Hb. apply orb_false_elim in Hb. destruct Hb as [Hq Hb].
    cbn [app Array_map]. rewrite plugin_id_entry, Hq. cbn [bind].
    rewrite (IH Hb Hp). reflexivity.
Qed.

Lemma first_nullish (l : list value) :
  existsb nullish l = true ->
  exists before p after,
    l = before ++ p :: after /\ existsb nullish before = false /\ nullish p = true.
Proof.
  induction l as [|q l IH]; [discriminate|].
  cbn [existsb]. destruct (nullish q) eqn:Hq.
  - intros _. exists [], q, l. repeat split. exact Hq.
  - cbn [orb]. intros H. destruct (IH H) as [before [p [after [-> [Hb Hp]]]]].
    exists (q :: before), p, after. repeat split; [|exact Hp].
    cbn [existsb]. now rewrite Hq, Hb.
Qed.

Lemma Array_map_plugin_id_returns (l ids : list value) :
  Array_map plugin_id l = Normal ids ->
  existsb nullish l = false /\ ids = map entry_id l.
Proof.
  intros H. destruct (existsb nullish l) eqn:E.
  - destruct (first_nullish l E) as [before [p [after [-> [Hb Hp]]]]].
    rewrite (Array_map_plugin_id_throw before after p Hb Hp) in H. discriminate.
  - rewrite (Array_map_plugin_id_normal l E) in H. split; congruence.
Qed.

(** X1: when [normalizePluginIds] returns, the result lists the identifier
    of every entry, one for one and in the order of the entries: a string is
    kept, any other entry is replaced by what its [id] reads as. *)
Theorem normalizePluginIds_pointwise (l : list value) (ids : value) :
  normalizePluginIds (VArr l) = Normal ids ->
  ids = VArr (map entry_id l) /\
  length (map entry_id l) = length l /\
  forall i p, nth_error l i = Some p ->
    nth_error (map entry_id l) i = Some (entry_id p) /\
    (typeof p = "string" -> entry_id p = p).
Proof.
  cbn [normalizePluginIds]. intros H.
  destruct (Array_map plugin_id l) as [ids'|] eqn:E; [|discriminate].
  cbn [bind] in H. apply Array_map_plugin_id_returns in E. destruct E as [_ ->].
  split; [congruence|]. split; [apply length_map|].
  intros i p Hi. split.
  - now apply map_nth_error.
  - destruct p; try discriminate. reflexivity.
Qed.

(** X2: [normalizePluginIds] on an array returns unless an entry is [null]
    or [undefined]; it then throws the [TypeError] of reading [id] from the
    first such entry. *)
Theorem normalizePluginIds_nullish (l : list value) :
  ((exists ids, normalizePluginIds (VArr l) = Normal ids) <->
   existsb nullish l = false) /\
  forall before p after,
    l = before ++ p :: after ->
    existsb nullish before = false ->
    nullish p = true ->
    normalizePluginIds (VArr l) = Throw (TypeError (CannotReadProperty "id" p)).
Proof.
  split.
  - split.
    + intros [ids H]. cbn [normalizePluginIds] in H.
      destruct (Array_map plugin_id l) as [ids'|] eqn:E; [|discriminate].
      exact (proj1 (Array_map_plugin_id_returns l ids' E)).
    + intros H. eexists. cbn [normalizePluginIds].
      rewrite (Array_map_plugin_id_normal l H). reflexivity.
  - intros before p after -> Hb Hp. cbn [normalizePluginIds].
    rewrite (Array_map_plugin_id_throw before after p Hb Hp). reflexivity.
Qed.

Section Further.

Variable h : Host.

(** X3: the validator returns exactly on the records that violate no rule
    and whose [plugins], after the default, hold no [null] or [undefined]
    entry. *)
Theorem processOptions_accepts (o : props) :
  (exists r, processOptions h o = Normal r) <->
  first_violation h o = None /\
  exists l, param o "plugins" (VArr []) = VArr l /\ existsb nullish l = false.
Proof.
  split.
  - intros [r H]. apply processOptions_normal in H.
    destruct H as [Hv [ids [Hn _]]]. split; [exact Hv|].
    destruct (param o "plugins" (VArr [])) as [| | | | |l| |]; try discriminate.
    exists l. split; [reflexivity|]. cbn [normalizePluginIds] in Hn.
    destruct (Array_map plugin_id l) as [ids'|] eqn:E; [|discriminate].
    exact (proj1 (Array_map_plugin_id_returns l ids' E)).
  - intros [Hv [l [Hl Hn]]]. eexists.
    rewrite processOptions_table, Hv, Hl. cbn [normalizePluginIds].
    rewrite (Array_map_plugin_id_normal l Hn). reflexivity.
Qed.

(** The rules a returned record has passed, one hypothesis for each. *)
Ltac passed_rules Hr :=
  apply Forall_forall in Hr; unfold field_rules in Hr;
  repeat match type of Hr with
         | Forall _ (_ :: _) =>
             let H := fresh "Hrule" in
             apply Forall_cons_iff in Hr; destruct Hr as [H Hr];
             cbv beta iota delta [violated supplied plain field default accepts] in H;
             apply negb_false_iff in H
         end.

(** X4: every field of a record the validator returns has the type its
    guard asks for; in particular no field is [undefined], [configFile] and
    [cacheLocation] are strings and [plugins] is an array. *)
Theorem returned_record_typed (o : props) (r : CLIEngineOptions) :
  processOptions h o = Normal r ->
  boolean (allowInlineConfig r) = true /\
  object_or_null (baseConfig r) = true /\
  boolean (cache r) = true /\
  a_string (cacheLocation r) = true /\
  a_string (configFile r) = true /\
  a_string (cwd r) = true /\
  an_array (envs r) = true /\
  array_or_null (extensions r) = true /\
  boolean (fix_ r) = true /\
  an_array (fixTypes r) = true /\
  an_array (globals r) = true /\
  boolean (globInputPaths r) = true /\
  boolean (ignore r) = true /\
  string_or_null (ignorePath r) = true /\
  string_or_array (ignorePattern r) = true /\
  a_string (parser r) = true /\
  object_or_null (parserOptions r) = true /\
  an_array (plugins r) = true /\
  boolean (reportUnusedDisableDirectives r) = true /\
  a_string (resolvePluginsRelativeTo r) = true /\
  an_array (rulePaths r) = true /\
  object_or_null (rules r) = true /\
  boolean (useEslintrc r) = true.
Proof.
  intros H. apply processOptions_normal in H.
  destruct H as [Hv [ids [Hn ->]]].
  apply no_violation in Hv. destruct Hv as [_ Hr].
  passed_rules Hr.
  assert (Hids : an_array ids = true).
  { destruct (param o "plugins" (VArr [])); try discriminate.
    cbn [normalizePluginIds] in Hn.
    destruct (Array_map plugin_id elems); [|discriminate].
    cbn [bind] in Hn. injection Hn as <-. reflexivity. }
  assert (Hcf : a_string (param o "configFile" VNull) = true).
  { destruct (a_string (param o "configFile" VNull)); [reflexivity|].
    destruct (param o "cacheLocation" (VStr ".eslintcache")); discriminate. }
  cbn [bound allowInlineConfig baseConfig cache cacheLocation configFile cwd envs
       extensions fix_ fixTypes globInputPaths globals ignore ignorePath
       ignorePattern parser parserOptions plugins reportUnusedDisableDirectives
       resolvePluginsRelativeTo rulePaths rules useEslintrc].
  repeat split; assumption.
Qed.

(** X5: a recognized field other than [plugins] that the raw record holds
    with a value other than [undefined] comes back under the same name with
    that very value. *)
Theorem supplied_value_returned (o : props) (r : CLIEngineOptions) (k : string) :
  processOptions h o = Normal r ->
  In k recognized ->
  k <> "plugins" ->
  is_undefined (own o k) = false ->
  own (to_props r) k = own o k.
Proof.
  intros H Hk Hp Hu. apply processOptions_normal in H.
  destruct H as [_ [ids [_ ->]]].
  unfold recognized in Hk. cbn [In] in Hk.
  repeat (destruct Hk as [<-|Hk]); [..|destruct Hk];
    try (exfalso; apply Hp; reflexivity);
    match goal with
    | |- own (to_props ?b) ?key = _ =>
        let v := eval cbv beta iota delta
                   [to_props lookup own String.eqb Ascii.eqb Bool.eqb andb bound
                    allowInlineConfig baseConfig cache cacheLocation configFile cwd
                    envs extensions fix_ fixTypes globInputPaths globals ignore
                    ignorePath ignorePattern parser parserOptions plugins
                    reportUnusedDisableDirectives resolvePluginsRelativeTo rulePaths
                    rules useEslintrc]
                 in (own (to_props b) key) in
        change (own (to_props b) key) with v
    end;
    unfold param; rewrite Hu; reflexivity.
Qed.

Lemma param_app_undefined (o : props) (k k' : string) (d : value) :
  param (o ++ [(k, VUndefined)]) k' d = param o k' d.
Proof.
  unfold param, own. rewrite lookup_app. cbn [lookup].
  destruct (lookup k' o); [reflexivity|]. destruct (k =? k'); reflexivity.
Qed.

(** X6: giving a recognized field explicitly as [undefined] is the same as
    leaving it out. *)
Theorem explicit_undefined_is_omission (o : props) (k : string) :
  mem k recognized = true ->
  lookup k o = None ->
  processOptions h (o ++ [(k, VUndefined)]) = processOptions h o.
Proof.
  intros Hk _. unfold processOptions.
  rewrite (rest_app_known o k VUndefined Hk).
  rewrite !param_app_undefined. reflexivity.
Qed.

(** X7: when the record supplies [cwd], the working directory of the
    process has no part in the result. *)
Theorem supplied_cwd_hides_process_cwd (o : props) (dir : string) :
  is_undefined (own o "cwd") = false ->
  processOptions (with_cwd h dir) o = processOptions h o.
Proof.
  intros Hc.
  assert (E : forall d, param o "cwd" d = own o "cwd").
  { intros d. unfold param. now rewrite Hc. }
  unfold processOptions. rewrite !E. reflexivity.
Qed.

(** X8: when the record leaves [resolvePluginsRelativeTo] out, the returned
    record has it equal to its [cwd], the supplied one or, if that is left
    out too, the working directory of the process. *)
Theorem resolvePluginsRelativeTo_follows_cwd (o : props) (r : CLIEngineOptions) :
  processOptions h o = Normal r ->
  is_undefined (own o "resolvePluginsRelativeTo") = true ->
  resolvePluginsRelativeTo r = cwd r /\
  (is_undefined (own o "cwd") = false -> resolvePluginsRelativeTo r = own o "cwd") /\
  (is_undefined (own o "cwd") = true ->
   resolvePluginsRelativeTo r = VStr (process_cwd h)).
Proof.
  intros H Hu. apply processOptions_normal in H.
  destruct H as [_ [ids [_ ->]]].
  cbn [bound resolvePluginsRelativeTo cwd]. unfold param. rewrite Hu.
  split; [reflexivity|]. split; intros ->; reflexivity.
Qed.

(** X9: a function given as [fix], which the documented type of the option
    allows, is never accepted: the validator throws. *)
Theorem function_fix_rejected (o : props) (f : nat) :
  own o "fix" = VFun f ->
  exists t, processOptions h o = Throw t.
Proof.
  intros Hf. destruct (processOptions h o) as [r|t] eqn:H; [|now exists t].
  exfalso. apply processOptions_normal in H. destruct H as [Hv _].
  apply no_violation in Hv. destruct Hv as [_ Hr].
  passed_rules Hr.
  match goal with
  | Hfix : boolean (param o "fix" _) = true |- _ =>
      unfold param in Hfix; rewrite Hf in Hfix; discriminate Hfix
  end.
Qed.

(** ** The calls of the constructor *)

Lemma registrations_only (l : list value) :
  forallb is_registration (flat_map registration l) = true.
Proof.
  induction l as [|p l IH]; [reflexivity|].
  cbn [flat_map]. rewrite forallb_app, IH. destruct p; reflexivity.
Qed.

(** The loop over entries none of which is an object. *)
Lemma for_of_no_object (l : list value) (e : engine h) :
  forallb (fun p => negb (typeof p =? "object")) l = true ->
  for_of (register_plugin h) e l = ([], Normal e).
Proof.
  induction l as [|p l IH]; [reflexivity|].
  cbn [forallb]. intros H. apply andb_prop in H. destruct H as [Hp Hl].
  apply negb_true_iff in Hp.
  assert (Hs : register_plugin h e p = ([], Normal e)).
  { unfold register_plugin. rewrite Hp. reflexivity. }
  cbn [for_of]. rewrite Hs. cbn [ebind]. rewrite (IH Hl). reflexivity.
Qed.

(** The loop up to the first call that throws. *)
Lemma for_of_app (l1 l2 : list value) (e : engine h) :
  for_of (register_plugin h) e (l1 ++ l2) =
  e' <~ for_of (register_plugin h) e l1 ;; for_of (register_plugin h) e' l2.
Proof.
  revert e. induction l1 as [|p l1 IH]; intros e.
  - cbn [app for_of pure ebind]. destruct (for_of (register_plugin h) e l2). reflexivity.
  - cbn [app for_of]. destruct (register_plugin h e p) as [cs [e1|t]]; cbn [ebind].
    + rewrite IH. destruct (for_of (register_plugin h) e1 l1) as [cs1 [e2|t]];
        cbn [ebind]; [|reflexivity].
      destruct (for_of (register_plugin h) e2 l2). now rewrite app_assoc.
    + reflexivity.
Qed.

(** A throw of the loop is a throw of [addPlugin]. *)
Lemma for_of_throw (l : list value) (e : engine h) (t : thrown) :
  outcome (for_of (register_plugin h) e l) = Throw t ->
  exists e' id definition, addPlugin h e' id definition = Throw t.
Proof.
  revert e. induction l as [|p l IH]; intros e; [discriminate|].
  cbn [for_of].
  destruct (register_plugin h e p) as [cs [e1|t1]] eqn:Hp; cbn [ebind].
  - destruct (for_of (register_plugin h) e1 l) as [cs' res] eqn:Hl.
    cbn [outcome snd]. intros ->. apply (IH e1). now rewrite Hl.
  - cbn [outcome snd]. intros [= ->].
    unfold register_plugin in Hp.
    destruct p; cbn in Hp; try discriminate;
      injection Hp as _ Hp; eexists; eexists; eexists; exact Hp.
Qed.

(** What the constructor does once the validator has returned. *)
Lemma constructor_accepted (o : props) (r : CLIEngineOptions) :
  NoDup (Object_keys o) ->
  processOptions h o = Normal r ->
  constructor h o =
  match CLIEngine_new h r with
  | Throw t => ([NewCLIEngine r], Throw t)
  | Normal e =>
      match own o "plugins" with
      | VArr [] => ([NewCLIEngine r], Normal {| _cliEngine := e |})
      | VArr l =>
          let (cs, res) := for_of (register_plugin h) e l in
          (NewCLIEngine r :: cs,
           match res with
           | Normal e' => Normal {| _cliEngine := e' |}
           | Throw t => Throw t
           end)
      | _ => ([NewCLIEngine r],
              Throw (TypeError (CannotReadProperty "length" VUndefined)))
      end
  end.
Proof.
  intros Hd Hr. destruct (raw_plugins_shape h o r Hr) as [Hp|[l Hp]];
    unfold constructor, new_CLIEngine;
    rewrite (Object_assign_copy h o Hd (accepted_no_proto h o r Hr));
    cbn [pure ebind]; rewrite Hr; cbn [pure ebind Get];
    destruct (CLIEngine_new h r) as [e|t]; try reflexivity; rewrite Hp.
  - reflexivity.
  - destruct l as [|p l]; [reflexivity|].
    change (Get (VArr (p :: l)) "length")
      with (Normal (VNum (Z.of_nat (length (p :: l))))).
    cbv beta iota.
    assert (Hlen : truthy (VNum (Z.of_nat (length (p :: l)))) = true).
    { cbn [truthy length]. destruct (Z.eqb_spec (Z.of_nat (S (length l))) 0);
        [lia|reflexivity]. }
    rewrite Hlen. cbn [iterate pure ebind app].
    destruct (for_of (register_plugin h) e (p :: l)) as [cs [e'|t]];
      cbn [ebind pure app]; rewrite ?app_nil_r; reflexivity.
Qed.


(** The loop issues registrations only. *)
Lemma for_of_registers (l : list value) (e : engine h) :
  forallb is_registration (calls (for_of (register_plugin h) e l)) = true.
Proof.
  destruct (for_of_registrations h l e) as [[later Hl] _].
  assert (Hall := registrations_only l).
  rewrite Hl, forallb_app in Hall. now apply andb_prop in Hall.
Qed.

(** X10: whatever the record, the constructor creates the engine at most
    once, only with the record the validator returned on the copy of the
    options, and before any other call; every later call is a registration.
    The copy is the record itself when it has no property named
    [__proto__]. *)
Theorem constructor_calls_shape (o : props) :
  NoDup (Object_keys o) ->
  (mem "__proto__" (Object_keys o) = false -> Object_assign h o = Normal o) /\
  (calls (constructor h o) = [] \/
   exists copy r regs,
     Object_assign h o = Normal copy /\
     processOptions h copy = Normal r /\
     calls (constructor h o) = NewCLIEngine r :: regs /\
     forallb is_registration regs = true).
Proof.
  intros Hd. split; [exact (Object_assign_copy h o Hd)|].
  unfold constructor, new_CLIEngine.
  destruct (Object_assign h o) as [copy|t]; [|now left].
  cbn [pure ebind].
  destruct (processOptions h copy) as [r|t] eqn:Hr; [|now left].
  right. exists copy, r. cbn [pure ebind].
  destruct (CLIEngine_new h r) as [e|t];
    [|exists []; repeat split; exact Hr].
  destruct (Get (VObj o) "plugins") as [v|t];
    [|exists []; repeat split; exact Hr].
  destruct (Get v "length") as [len|t];
    [|exists []; repeat split; exact Hr].
  destruct (truthy len); cbn [pure ebind];
    [|exists []; repeat split; exact Hr].
  destruct (iterate v) as [l|t];
    [|exists []; repeat split; exact Hr].
  assert (Hreg := for_of_registers l e).
  destruct (for_of (register_plugin h) e l) as [cs [e'|t]];
    cbn [calls fst] in Hreg; cbn [ebind pure calls fst app];
    exists cs; rewrite ?app_nil_r; repeat split; try exact Hr; exact Hreg.
Qed.

(** X11: for a record with no property named [__proto__], a throw of the
    constructor is the throw of the validator, of the engine's constructor
    or of [addPlugin], unchanged, or else the [TypeError] of reading
    [length] when the record has no [plugins]. *)
Theorem constructor_throw_origin (o : props) (t : thrown) :
  NoDup (Object_keys o) ->
  mem "__proto__" (Object_keys o) = false ->
  outcome (constructor h o) = Throw t ->
  processOptions h o = Throw t \/
  (exists r, processOptions h o = Normal r /\ CLIEngine_new h r = Throw t) \/
  (exists e id definition, addPlugin h e id definition = Throw t) \/
  (own o "plugins" = VUndefined /\
   t = TypeError (CannotReadProperty "length" VUndefined)).
Proof.
  intros Hd Hn. destruct (processOptions h o) as [r|t'] eqn:Hr.
  - rewrite (constructor_accepted o r Hd Hr).
    destruct (CLIEngine_new h r) as [e|t'] eqn:He.
    + destruct (raw_plugins_shape h o r Hr) as [Hp|[l Hp]]; rewrite Hp.
      * cbn [outcome snd]. intros [= <-]. right. right. right. now split.
      * destruct l as [|p l]; [discriminate|].
        destruct (for_of (register_plugin h) e (p :: l)) as [cs [e'|t']] eqn:Hl;
          cbn [outcome snd]; [discriminate|].
        intros [= ->]. right. right. left.
        apply (for_of_throw (p :: l) e t). now rewrite Hl.
    + cbn [outcome snd]. intros [= ->]. right. left. now exists r.
  - rewrite (constructor_rejects h o t' Hd Hn Hr). cbn [outcome snd].
    intros [= ->]. now left.
Qed.


(** X13: when [plugins] is an array with no object among its entries, the
    empty array included, the constructor makes no registration call and
    returns as soon as the engine is created. *)
Theorem no_object_no_registration (o : props) (l : list value)
    (r : CLIEngineOptions) (e : engine h) :
  NoDup (Object_keys o) ->
  own o "plugins" = VArr l ->
  forallb (fun p => negb (typeof p =? "object")) l = true ->
  processOptions h o = Normal r ->
  CLIEngine_new h r = Normal e ->
  constructor h o = ([NewCLIEngine r], Normal {| _cliEngine := e |}).
Proof.
  intros Hd Hp Hl Hr He.
  rewrite (constructor_accepted o r Hd Hr), He, Hp.
  destruct l as [|p l]; [reflexivity|].
  rewrite (for_of_no_object (p :: l) e Hl). reflexivity.
Qed.

(** X14: when the engine's constructor throws, the constructor throws the
    same value after that one call: no plugin is registered. *)
Theorem engine_failure_propagates (o : props) (r : CLIEngineOptions) (t : thrown) :
  NoDup (Object_keys o) ->
  processOptions h o = Normal r ->
  CLIEngine_new h r = Throw t ->
  constructor h o = ([NewCLIEngine r], Throw t) /\
  filter is_registration (calls (constructor h o)) = [].
Proof.
  intros Hd Hr He.
  rewrite (constructor_accepted o r Hd Hr), He. split; reflexivity.
Qed.

(** X15: when [addPlugin] throws at the first object among the entries, the
    constructor throws the same value and the entries after it are not
    registered. *)
Theorem registration_failure_stops (o : props) (before after : list value)
    (p : props) (r : CLIEngineOptions) (e : engine h) (t : thrown) :
  NoDup (Object_keys o) ->
  own o "plugins" = VArr (before ++ VObj p :: after) ->
  forallb (fun q => negb (typeof q =? "object")) before = true ->
  processOptions h o = Normal r ->
  CLIEngine_new h r = Normal e ->
  addPlugin h e (own p "id") (own p "definition") = Throw t ->
  constructor h o =
    ([NewCLIEngine r; AddPlugin (own p "id") (own p "definition")], Throw t).
Proof.
  intros Hd Hp Hb Hr He Ht.
  assert (Hloop : for_of (register_plugin h) e (before ++ VObj p :: after)
                  = ([AddPlugin (own p "id") (own p "definition")], Throw t)).
  { rewrite for_of_app, (for_of_no_object before e Hb). cbn [ebind for_of].
    unfold register_plugin at 1. cbn. rewrite Ht. reflexivity. }
  rewrite (constructor_accepted o r Hd Hr), He, Hp.
  destruct (before ++ VObj p :: after) as [|q l] eqn:E.
  - destruct before; discriminate.
  - rewrite Hloop. reflexivity.
Qed.


(** X19: when the record has no [plugins] field the constructor never
    returns: it throws in the copy, in validation or in the engine's
    constructor, or else on reading [length] of [undefined]. *)
Theorem omitted_plugins_never_returns (o : props) :
  lookup "plugins" o = None ->
  exists t, outcome (constructor h o) = Throw t.
Proof.
  intros Ha. unfold constructor, new_CLIEngine.
  destruct (Object_assign h o) as [copy|t]; [|now exists t].
  cbn [pure ebind].
  destruct (processOptions h copy) as [r|t]; [|now exists t].
  cbn [pure ebind].
  destruct (CLIEngine_new h r) as [e|t]; [|now exists t].
  cbn [Get]. rewrite (own_absent o "plugins" Ha). eexists. reflexivity.
Qed.

(** X20: a property named [__proto__] whose value is not an object or
    [null] does not reach the validator: the constructor does on the record
    what it does on the record without that property, although the name is
    not a recognized one. *)
Theorem primitive_proto_ignored (before after : props) (v : value) :
  NoDup (Object_keys (before ++ after)) ->
  mem "__proto__" (Object_keys (before ++ after)) = false ->
  installs_prototype v = false ->
  has_unknown (before ++ ("__proto__", v) :: after) = true /\
  Object_assign h (before ++ ("__proto__", v) :: after) = Normal (before ++ after) /\
  constructor h (before ++ ("__proto__", v) :: after) = constructor h (before ++ after).
Proof.
  intros Hd Hn Hv.
  assert (Hn1 : lookup "__proto__" before = None).
  { assert (H := no_proto_absent _ Hn). rewrite lookup_app in H.
    destruct (lookup "__proto__" before); [discriminate|reflexivity]. }
  assert (Hcopy : Object_assign h (before ++ ("__proto__", v) :: after)
                  = Normal (before ++ after)).
  { unfold Object_assign, own. rewrite lookup_app, Hn1. cbn [lookup].
    rewrite String.eqb_refl, Hv.
    rewrite fold_left_app. cbn [fold_left]. unfold store at 2. cbn [fst].
    rewrite String.eqb_refl. rewrite <- fold_left_app.
    now rewrite (store_fresh (before ++ after) [] Hd Hn). }
  assert (Hplugins : own (before ++ ("__proto__", v) :: after) "plugins"
                     = own (before ++ after) "plugins").
  { unfold own. rewrite !lookup_app. cbn [lookup].
    change ("__proto__" =? "plugins") with false. reflexivity. }
  split; [|split; [exact Hcopy|]].
  - unfold has_unknown, Object_keys. rewrite map_app, forallb_app.
    cbn [map fst forallb]. change (mem "__proto__" recognized) with false.
    cbn [andb]. now rewrite andb_false_r.
  - unfold constructor. rewrite Hcopy, (Object_assign_copy h _ Hd Hn).
    cbn [Get]. rewrite Hplugins. reflexivity.
Qed.

(** ** Order of the properties *)

Lemma lookup_In (o : props) (k : string) (v : value) :
  NoDup (Object_keys o) -> (lookup k o = Some v <-> In (k, v) o).
Proof.
  induction o as [|[k' v'] o IH]; intros Hd.
  - split; [discriminate|intros []].
  - cbn [Object_keys map fst] in Hd. inversion Hd as [|? ? Hk Hd']; subst.
    cbn [lookup In]. destruct (k' =? k) eqn:E.
    + apply String.eqb_eq in E. subst k'. split.
      * intros [= ->]. now left.
      * intros [[= ->]|Hin]; [reflexivity|].
        exfalso. apply Hk. change k with (fst (k, v)). now apply in_map.
    + apply String.eqb_neq in E. rewrite (IH Hd'). split.
      * intros Hin. now right.
      * intros [[= -> ->]|Hin]; [contradiction|exact Hin].
Qed.

Lemma lookup_permutation (o o' : props) (k : string) :
  NoDup (Object_keys o) -> Permutation o o' -> lookup k o' = lookup k o.
Proof.
  intros Hd Hperm.
  assert (Hd' : NoDup (Object_keys o')).
  { unfold Object_keys. eapply Permutation_NoDup; [|exact Hd].
    now apply Permutation_map. }
  destruct (lookup k o) as [v|] eqn:E.
  - apply (lookup_In o' k v Hd'). apply (Permutation_in _ Hperm).
    now apply (lookup_In o k v Hd).
  - destruct (lookup k o') as [v|] eqn:E'; [|reflexivity].
    apply (lookup_In o' k v Hd') in E'.
    apply (Permutation_in _ (Permutation_sym Hperm)) in E'.
    apply (lookup_In o k v Hd) in E'. congruence.
Qed.

Lemma has_unknown_permutation (o o' : props) :
  Permutation o o' -> has_unknown o = false -> has_unknown o' = false.
Proof.
  unfold has_unknown. intros Hperm H.
  apply negb_false_iff in H. apply negb_false_iff.
  rewrite forallb_forall in *. intros k Hk. apply H.
  apply (Permutation_in _ (Permutation_sym (Permutation_map fst Hperm))). exact Hk.
Qed.

(** X17: for a well-formed record with recognized fields only, the order in
    which the fields are written has no part in what the validator and the
    constructor do. *)
Theorem field_order_irrelevant (o o' : props) :
  NoDup (Object_keys o) ->
  Permutation o o' ->
  has_unknown o = false ->
  processOptions h o' = processOptions h o /\
  constructor h o' = constructor h o.
Proof.
  intros Hd Hperm Hu.
  assert (Hd' : NoDup (Object_keys o')).
  { unfold Object_keys. eapply Permutation_NoDup; [|exact Hd].
    now apply Permutation_map. }
  assert (Hown : forall k, own o' k = own o k).
  { intros k. unfold own. now rewrite (lookup_permutation o o' k Hd Hperm). }
  assert (Hparam : forall k d, param o' k d = param o k d).
  { intros k d. unfold param. now rewrite Hown. }
  assert (Hp : processOptions h o' = processOptions h o).
  { unfold processOptions.
    rewrite (rest_known o Hu), (rest_known o' (has_unknown_permutation o o' Hperm Hu)).
    rewrite !Hparam. reflexivity. }
  split; [exact Hp|]. unfold constructor.
  rewrite (Object_assign_copy h o Hd (known_no_proto o Hu)).
  rewrite (Object_assign_copy h o' Hd'
             (known_no_proto o' (has_unknown_permutation o o' Hperm Hu))).
  cbn [pure ebind]. rewrite Hp. cbn [Get]. rewrite Hown. reflexivity.
Qed.

(** ** The returned record as input *)

(** X18: the record the validator returns passes every guard when it is
    validated again; the second pass returns the same fields except for
    [plugins], or throws the [TypeError] of reading [id] from a plugin
    identifier that came out [null] or [undefined]. *)
Theorem returned_record_revalidated (o : props) (r : CLIEngineOptions) :
  processOptions h o = Normal r ->
  first_violation h (to_props r) = None /\
  (forall r', processOptions h (to_props r) = Normal r' ->
     forall k, k <> "plugins" -> own (to_props r') k = own (to_props r) k) /\
  (forall t, processOptions h (to_props r) = Throw t ->
     exists p, t = TypeError (CannotReadProperty "id" p) /\ nullish p = true).
Proof.
  intros H. apply processOptions_normal in H.
  destruct H as [Hv [ids [Hn ->]]].
  assert (Hl : exists l, ids = VArr l).
  { destruct (param o "plugins" (VArr [])); try discriminate.
    cbn [normalizePluginIds] in Hn.
    destruct (Array_map plugin_id elems) as [l|]; [|discriminate].
    exists l. cbn [bind] in Hn. congruence. }
  destruct Hl as [l ->].
  assert (Hagain := processOptions_again h o l Hv).
  split; [|split].
  - destruct (no_violation h o Hv) as [_ Hr]. unfold first_violation.
    change (has_unknown (to_props (bound h o (VArr l)))) with false. cbv iota.
    now rewrite (find_nowhere _ _ (rules_of_returned h o l Hr)).
  - intros r' Hr' k Hk. rewrite Hagain in Hr'.
    destruct (normalizePluginIds (VArr l)) as [ids'|]; [|discriminate].
    cbn [bind] in Hr'. injection Hr' as <-.
    unfold own, to_props, bound.
    cbn [lookup allowInlineConfig baseConfig cache cacheLocation configFile cwd
         envs extensions fix_ fixTypes globInputPaths globals ignore ignorePath
         ignorePattern parser parserOptions plugins reportUnusedDisableDirectives
         resolvePluginsRelativeTo rulePaths rules useEslintrc].
    repeat match goal with
           | |- context [if ?a =? k then _ else _] =>
               let E := fresh "E" in
               destruct (a =? k) eqn:E;
               [try reflexivity; apply String.eqb_eq in E; congruence|]
           end.
    reflexivity.
  - intros t Ht. rewrite Hagain in Ht. cbn [normalizePluginIds] in Ht.
    destruct (existsb nullish l) eqn:E.
    + destruct (first_nullish l E) as [before [p [after [-> [Hb Hp]]]]].
      rewrite (Array_map_plugin_id_throw before after p Hb Hp) in Ht.
      cbn [bind] in Ht. injection Ht as <-. now exists p.
    + rewrite (Array_map_plugin_id_normal l E) in Ht. discriminate.
Qed.

End Further.

(** * Instances *)

(** The theorems above at concrete records, on [recording_host]. *)

Lemma populated_keys (plugins : value) : NoDup (Object_keys (populated plugins)).
Proof.
  unfold Object_keys, populated. cbn [map fst].
  repeat (constructor; [cbn [In]; intuition discriminate|]). constructor.
Qed.

Lemma unknown_options_type_error_witness :
  processOptions recording_host [("foo", VNum 1)]
    = Throw (TypeError (NotAFunction "unknownOptions.includes")) /\
  constructor recording_host [("foo", VNum 1)]
    = ([], Throw (TypeError (NotAFunction "unknownOptions.includes"))) /\
  processOptions recording_host [("cacheFile", VStr ".cache")]
    = Throw (TypeError (NotAFunction "unknownOptions.includes")).
Proof.
  assert (Hfoo : forall f, own (rest_properties recognized [("foo", VNum 1)]) "includes"
                           <> VFun f) by (intros f; discriminate).
  assert (Hcache : forall f,
            own (rest_properties recognized [("cacheFile", VStr ".cache")]) "includes"
            <> VFun f) by (intros f; discriminate).
  destruct (unknown_options_type_error recording_host [("foo", VNum 1)] eq_refl Hfoo)
    as [Hp Hc].
  split; [exact Hp|]. split.
  - apply Hc; [repeat constructor; intros []|reflexivity].
  - exact (proj1 (unknown_options_type_error recording_host
                    [("cacheFile", VStr ".cache")] eq_refl Hcache)).
Defined.

Lemma configFile_is_string_witness :
  exists r,
    processOptions recording_host [("configFile", VStr "c")] = Normal r /\
    typeof (configFile r) = "string" /\
    configFile r <> VNull.
Proof.
  eexists. split; [reflexivity|].
  apply (configFile_is_string recording_host [("configFile", VStr "c")]).
  reflexivity.
Defined.

Lemma first_violation_fails_witness :
  violated recording_host mistyped
    (plain "cache" (VBool false) boolean "cache must be a boolean.") = true /\
  processOptions recording_host mistyped = Throw (Error "cache must be a boolean.") /\
  constructor recording_host mistyped = ([], Throw (Error "cache must be a boolean.")) /\
  calls (constructor recording_host mistyped) = [].
Proof.
  split; [reflexivity|].
  assert (Hin : In (plain "cache" (VBool false) boolean "cache must be a boolean.")
                  field_rules) by (right; right; left; reflexivity).
  destruct (first_violation_fails recording_host mistyped
              (or_intror (ex_intro _ _ (conj Hin eq_refl)))) as [v [Hp [Hc _]]].
  assert (Hv : raised recording_host mistyped v = Error "cache must be a boolean.").
  { assert (E : processOptions recording_host mistyped
                = Throw (Error "cache must be a boolean.")) by reflexivity.
    rewrite E in Hp. now injection Hp. }
  rewrite Hv in Hp, Hc. split; [exact Hp|].
  apply Hc; [|reflexivity].
  repeat constructor; cbn [In]; intuition discriminate.
Defined.

(** C8, as stated, fails: a record with a field outside the recognized set,
    named [__proto__].  The copy the constructor validates does not keep
    the field, so validation passes, the engine is created and the
    constructor returns. *)
Lemma proto_field_not_rejected :
  has_unknown [("__proto__", VNum 5); ("configFile", VStr "c"); ("plugins", VArr [])]
    = true /\
  exists r,
    constructor recording_host
      [("__proto__", VNum 5); ("configFile", VStr "c"); ("plugins", VArr [])]
    = ([NewCLIEngine r], Normal (Build_ESLint recording_host [])).
Proof.
  split; [reflexivity|]. eexists. reflexivity.
Qed.

Lemma omitted_plugins_throws_witness :
  processOptions recording_host [("configFile", VStr "c")]
    = Normal (bound recording_host [("configFile", VStr "c")] (VArr [])) /\
  constructor recording_host [("configFile", VStr "c")] =
    ([NewCLIEngine (bound recording_host [("configFile", VStr "c")] (VArr []))],
     Throw (TypeError (CannotReadProperty "length" VUndefined))) /\
  constructor recording_host ([("configFile", VStr "c")] ++ [("plugins", VArr [])]) =
    ([NewCLIEngine (bound recording_host [("configFile", VStr "c")] (VArr []))],
     Normal (Build_ESLint recording_host [])).
Proof.
  apply (omitted_plugins_throws recording_host [("configFile", VStr "c")]).
  - repeat constructor. intros [].
  - reflexivity.
  - reflexivity.
  - reflexivity.
Defined.

(** C9, as stated, fails: a record without [plugins] and with a wrongly
    typed [cache].  The constructor throws in validation, before the engine
    is created. *)
Lemma omitted_plugins_invalid_record :
  lookup "plugins" [("configFile", VStr "c"); ("cache", VStr "yes")] = None /\
  constructor recording_host [("configFile", VStr "c"); ("cache", VStr "yes")]
    = ([], Throw (Error "cache must be a boolean.")).
Proof.
  split; reflexivity.
Qed.

Lemma plugins_example_witness :
  exists r,
    processOptions recording_host (populated foo_and_bar) = Normal r /\
    plugins r = VArr [VStr "foo"; VStr "bar"] /\
    forall e, CLIEngine_new recording_host r = Normal e ->
      calls (constructor recording_host (populated foo_and_bar))
        = [NewCLIEngine r; AddPlugin (VStr "bar") (VObj [])].
Proof.
  apply (proj1 (plugins_example recording_host) (populated foo_and_bar)).
  - apply populated_keys.
  - reflexivity.
  - reflexivity.
Defined.

Lemma second_pass_same_witness :
  fully_populated (populated foo_and_bar) = true /\
  exists r,
    processOptions recording_host (populated foo_and_bar) = Normal r /\
    processOptions recording_host (to_props r) = Normal r.
Proof.
  split; [reflexivity|].
  apply (second_pass_same recording_host (populated foo_and_bar)); reflexivity.
Defined.

(** C7, as stated, fails: a record that supplies every field with a value
    its rule accepts, one of the plugins an object without [id].  The first
    pass returns a record whose [plugins] holds [undefined]; the second
    pass throws on it. *)
Lemma second_pass_throws :
  fully_populated (populated (VArr [VObj [("definition", VObj [])]])) = true /\
  first_violation recording_host (populated (VArr [VObj [("definition", VObj [])]])) = None /\
  exists r,
    processOptions recording_host (populated (VArr [VObj [("definition", VObj [])]]))
      = Normal r /\
    plugins r = VArr [VUndefined] /\
    processOptions recording_host (to_props r)
      = Throw (TypeError (CannotReadProperty "id" VUndefined)).
Proof.
  split; [reflexivity|]. split; [reflexivity|].
  eexists. split; [reflexivity|]. split; reflexivity.
Qed.

(** C6, as stated, fails: an object entry with no [definition] field is
    registered all the same, with [undefined] for its definition. *)
Lemma registered_without_definition :
  lookup "definition" [("id", VStr "bar")] = None /\
  exists r,
    processOptions recording_host
      [("configFile", VStr "c"); ("plugins", VArr [VObj [("id", VStr "bar")]])] = Normal r /\
    constructor recording_host
      [("configFile", VStr "c"); ("plugins", VArr [VObj [("id", VStr "bar")]])]
    = ([NewCLIEngine r; AddPlugin (VStr "bar") VUndefined],
       Normal (Build_ESLint recording_host [(VStr "bar", VUndefined)])).
Proof.
  split; [reflexivity|]. eexists. split; reflexivity.
Qed.

(** Instances of the further properties. *)

Lemma normalizePluginIds_pointwise_witness :
  normalizePluginIds foo_and_bar = Normal (VArr [VStr "foo"; VStr "bar"]) /\
  VArr [VStr "foo"; VStr "bar"]
    = VArr (map entry_id [VStr "foo"; VObj [("id", VStr "bar"); ("definition", VObj [])]]).
Proof.
  split; [reflexivity|].
  exact (proj1 (normalizePluginIds_pointwise
                  [VStr "foo"; VObj [("id", VStr "bar"); ("definition", VObj [])]]
                  (VArr [VStr "foo"; VStr "bar"]) eq_refl)).
Defined.

Lemma returned_record_typed_witness :
  exists r,
    processOptions recording_host (populated foo_and_bar) = Normal r /\
    a_string (configFile r) = true /\
    an_array (plugins r) = true.
Proof.
  eexists. split; [reflexivity|].
  pose proof (returned_record_typed recording_host (populated foo_and_bar) _ eq_refl)
    as H.
  split; [exact (proj1 (proj2 (proj2 (proj2 (proj2 H)))))|].
  exact (proj1 (proj2 (proj2 (proj2 (proj2 (proj2 (proj2 (proj2 (proj2 (proj2
          (proj2 (proj2 (proj2 (proj2 (proj2 (proj2 (proj2 (proj2 H)))))))))))))))))).
Defined.

Lemma supplied_value_returned_witness :
  exists r,
    processOptions recording_host (populated foo_and_bar) = Normal r /\
    own (to_props r) "parser" = own (populated foo_and_bar) "parser".
Proof.
  eexists. split; [reflexivity|].
  apply (supplied_value_returned recording_host (populated foo_and_bar) _ "parser").
  - reflexivity.
  - do 15 right. left. reflexivity.
  - intros E. discriminate E.
  - reflexivity.
Defined.

Lemma explicit_undefined_is_omission_witness :
  processOptions recording_host ([("configFile", VStr "c")] ++ [("cache", VUndefined)])
    = processOptions recording_host [("configFile", VStr "c")].
Proof.
  apply (explicit_undefined_is_omission recording_host [("configFile", VStr "c")] "cache");
    reflexivity.
Defined.

Lemma supplied_cwd_hides_process_cwd_witness :
  is_undefined (own (populated foo_and_bar) "cwd") = false /\
  processOptions (with_cwd recording_host "/elsewhere") (populated foo_and_bar)
    = processOptions recording_host (populated foo_and_bar).
Proof.
  split; [reflexivity|].
  apply (supplied_cwd_hides_process_cwd recording_host (populated foo_and_bar)).
  reflexivity.
Defined.

Lemma resolvePluginsRelativeTo_follows_cwd_witness :
  exists r,
    processOptions recording_host [("configFile", VStr "c"); ("cwd", VStr "/project")]
      = Normal r /\
    resolvePluginsRelativeTo r = VStr "/project".
Proof.
  eexists. split; [reflexivity|].
  refine (proj1 (proj2 (resolvePluginsRelativeTo_follows_cwd recording_host
                   [("configFile", VStr "c"); ("cwd", VStr "/project")] _
                   eq_refl eq_refl)) _).
  reflexivity.
Defined.

Lemma function_fix_rejected_witness :
  exists t,
    processOptions recording_host [("configFile", VStr "c"); ("fix", VFun 0)] = Throw t.
Proof.
  apply (function_fix_rejected recording_host
           [("configFile", VStr "c"); ("fix", VFun 0)] 0).
  reflexivity.
Defined.

Lemma constructor_calls_shape_witness :
  (mem "__proto__" (Object_keys (populated foo_and_bar)) = false ->
   Object_assign recording_host (populated foo_and_bar)
     = Normal (populated foo_and_bar)) /\
  (calls (constructor recording_host (populated foo_and_bar)) = [] \/
   exists copy r regs,
     Object_assign recording_host (populated foo_and_bar) = Normal copy /\
     processOptions recording_host copy = Normal r /\
     calls (constructor recording_host (populated foo_and_bar))
       = NewCLIEngine r :: regs /\
     forallb is_registration regs = true).
Proof.
  apply (constructor_calls_shape recording_host (populated foo_and_bar)).
  apply populated_keys.
Defined.

Lemma constructor_throw_origin_witness :
  outcome (constructor recording_host [("configFile", VStr "c")])
    = Throw (TypeError (CannotReadProperty "length" VUndefined)) /\
  (processOptions recording_host [("configFile", VStr "c")]
     = Throw (TypeError (CannotReadProperty "length" VUndefined)) \/
   (exists r, processOptions recording_host [("configFile", VStr "c")] = Normal r /\
              CLIEngine_new recording_host r
                = Throw (TypeError (CannotReadProperty "length" VUndefined))) \/
   (exists e id definition,
      addPlugin recording_host e id definition
        = Throw (TypeError (CannotReadProperty "length" VUndefined))) \/
   (own [("configFile", VStr "c")] "plugins" = VUndefined /\
    TypeError (CannotReadProperty "length" VUndefined)
      = TypeError (CannotReadProperty "length" VUndefined))).
Proof.
  split; [reflexivity|].
  apply (constructor_throw_origin recording_host [("configFile", VStr "c")]).
  - repeat constructor. intros [].
  - reflexivity.
  - reflexivity.
Defined.


Lemma no_object_no_registration_witness :
  exists r,
    processOptions recording_host
      [("configFile", VStr "c"); ("plugins", VArr [VStr "foo"])] = Normal r /\
    constructor recording_host
      [("configFile", VStr "c"); ("plugins", VArr [VStr "foo"])]
    = ([NewCLIEngine r], Normal (Build_ESLint recording_host [])).
Proof.
  eexists. split; [reflexivity|].
  apply (no_object_no_registration recording_host
           [("configFile", VStr "c"); ("plugins", VArr [VStr "foo"])] [VStr "foo"]).
  - repeat constructor; cbn [In]; intuition discriminate.
  - reflexivity.
  - reflexivity.
  - reflexivity.
  - reflexivity.
Defined.

Lemma engine_failure_propagates_witness :
  exists r,
    processOptions refusing_host [("configFile", VStr "c"); ("plugins", foo_and_bar)]
      = Normal r /\
    constructor refusing_host [("configFile", VStr "c"); ("plugins", foo_and_bar)]
      = ([NewCLIEngine r], Throw (Foreign (VStr "no engine"))).
Proof.
  eexists. split; [reflexivity|].
  refine (proj1 (engine_failure_propagates refusing_host
                   [("configFile", VStr "c"); ("plugins", foo_and_bar)] _
                   (Foreign (VStr "no engine")) _ eq_refl eq_refl)).
  repeat constructor; cbn [In]; intuition discriminate.
Defined.

Lemma registration_failure_stops_witness :
  exists r,
    processOptions strict_host
      [("configFile", VStr "c");
       ("plugins", VArr [VStr "foo"; VObj [("id", VStr "bar")];
                         VObj [("id", VStr "baz"); ("definition", VObj [])]])]
      = Normal r /\
    constructor strict_host
      [("configFile", VStr "c");
       ("plugins", VArr [VStr "foo"; VObj [("id", VStr "bar")];
                         VObj [("id", VStr "baz"); ("definition", VObj [])]])]
    = ([NewCLIEngine r; AddPlugin (VStr "bar") VUndefined],
       Throw (Foreign (VStr "definition must be an object"))).
Proof.
  eexists. split; [reflexivity|].
  apply (registration_failure_stops strict_host _ [VStr "foo"]
           [VObj [("id", VStr "baz"); ("definition", VObj [])]]
           [("id", VStr "bar")] _ []).
  - repeat constructor; cbn [In]; intuition discriminate.
  - reflexivity.
  - reflexivity.
  - reflexivity.
  - reflexivity.
  - reflexivity.
Defined.


Lemma omitted_plugins_never_returns_witness :
  exists t, outcome (constructor recording_host [("configFile", VStr "c")]) = Throw t.
Proof.
  apply (omitted_plugins_never_returns recording_host [("configFile", VStr "c")]).
  reflexivity.
Defined.

Lemma primitive_proto_ignored_witness :
  has_unknown ([] ++ ("__proto__", VNum 5)
                 :: [("configFile", VStr "c"); ("plugins", VArr [])]) = true /\
  Object_assign recording_host
    ([] ++ ("__proto__", VNum 5) :: [("configFile", VStr "c"); ("plugins", VArr [])])
    = Normal ([] ++ [("configFile", VStr "c"); ("plugins", VArr [])]) /\
  constructor recording_host
    ([] ++ ("__proto__", VNum 5) :: [("configFile", VStr "c"); ("plugins", VArr [])])
    = constructor recording_host ([] ++ [("configFile", VStr "c"); ("plugins", VArr [])]).
Proof.
  apply (primitive_proto_ignored recording_host []
           [("configFile", VStr "c"); ("plugins", VArr [])] (VNum 5)).
  - repeat constructor; cbn [In]; intuition discriminate.
  - reflexivity.
  - reflexivity.
Defined.

Lemma field_order_irrelevant_witness :
  processOptions recording_host [("cache", VBool true); ("configFile", VStr "c")]
    = processOptions recording_host [("configFile", VStr "c"); ("cache", VBool true)] /\
  constructor recording_host [("cache", VBool true); ("configFile", VStr "c")]
    = constructor recording_host [("configFile", VStr "c"); ("cache", VBool true)].
Proof.
  apply (field_order_irrelevant recording_host
           [("configFile", VStr "c"); ("cache", VBool true)]
           [("cache", VBool true); ("configFile", VStr "c")]).
  - repeat constructor; cbn [In]; intuition discriminate.
  - apply perm_swap.
  - reflexivity.
Defined.

Lemma returned_record_revalidated_witness :
  exists r,
    processOptions recording_host (populated foo_and_bar) = Normal r /\
    first_violation recording_host (to_props r) = None.
Proof.
  eexists. split; [reflexivity|].
  exact (proj1 (returned_record_revalidated recording_host (populated foo_and_bar) _
                  eq_refl)).
Defined.
